(** * Run profiles of the RIDE test runner plugin

    A shallow embedding of [src/robotide/contrib/testrunner/runprofiles.py]:
    the command resolution, argument assembly, tag parsing, argument
    validation, failure classification and settings lookup of the runner
    profiles [BaseProfile], [PybotProfile] and [CustomScriptProfile].
    The wx widget code of the module carries no logic of its own and is
    not embedded.

    Python [str] values are modelled by [string]; a character is a code
    point below 256.  Python [bytes] values are modelled by [string] too,
    where the correspondence is exact. *)

From Stdlib Require Import ZArith Ascii.
From stdpp Require Import gmap strings list.

(** ** Python string primitives used by the module *)

Module PyStr.

Definition dquote : string := String (ascii_of_nat 34) "".
Definition squote : string := String (ascii_of_nat 39) "".
Definition backslash : string := String (ascii_of_nat 92) "".

(** [str.isspace] on one character, for the code points below 256:
    TAB..CR, FS..US, SPACE, NEL and NBSP. *)
Definition is_space (c : ascii) : bool :=
  let n := nat_of_ascii c in
  (Nat.leb 9 n && Nat.leb n 13) || (Nat.leb 28 n && Nat.leb n 32)
  || Nat.eqb n 133 || Nat.eqb n 160.

(** [bool(s)] for a string. *)
Definition truthy (s : string) : bool :=
  match s with EmptyString => false | String _ _ => true end.

Fixpoint chars (s : string) : list ascii :=
  match s with
  | EmptyString => []
  | String c s' => c :: chars s'
  end.

(** [s.startswith(p)] *)
Fixpoint startswith (p s : string) : bool :=
  match p, s with
  | EmptyString, _ => true
  | String a p', String b s' => if decide (a = b) then startswith p' s' else false
  | String _ _, EmptyString => false
  end.

(** [s.lstrip()] *)
Fixpoint lstrip (s : string) : string :=
  match s with
  | EmptyString => EmptyString
  | String c s' => if is_space c then lstrip s' else s
  end.

(** [s.rstrip()] *)
Fixpoint rstrip (s : string) : string :=
  match s with
  | EmptyString => EmptyString
  | String c s' =>
      match rstrip s' with
      | EmptyString => if is_space c then EmptyString else String c EmptyString
      | r => String c r
      end
  end.

(** [s.strip()] *)
Definition strip (s : string) : string := lstrip (rstrip s).

(** [s.lstrip(set)]: drops the leading characters that occur in [set]. *)
Fixpoint lstrip_chars (set : string) (s : string) : string :=
  match s with
  | EmptyString => EmptyString
  | String c s' =>
      if bool_decide (c ∈ chars set) then lstrip_chars set s' else s
  end.

(** [s.split()]: the maximal runs of non-whitespace characters.  [tok]
    is the run being read. *)
Fixpoint split_ws_from (tok : string) (s : string) : list string :=
  match s with
  | EmptyString => if truthy tok then [tok] else []
  | String c s' =>
      if is_space c
      then (if truthy tok then tok :: split_ws_from "" s'
            else split_ws_from "" s')
      else split_ws_from (tok +:+ String c "") s'
  end.

Definition split (s : string) : list string := split_ws_from "" s.

(** [s.split(sep)] for a one-character separator: every occurrence
    splits, empty pieces are kept, and the empty string gives [['']]. *)
Fixpoint split_on (sep : ascii) (s : string) : list string :=
  match s with
  | EmptyString => [""]
  | String c s' =>
      if decide (c = sep) then "" :: split_on sep s'
      else match split_on sep s' with
           | w :: ws => String c w :: ws
           | [] => [String c ""]
           end
  end.

(** [sep.join(l)] *)
Fixpoint join (sep : string) (l : list string) : string :=
  match l with
  | [] => ""
  | [w] => w
  | w :: ws => w +:+ sep +:+ join sep ws
  end.

(** [s.replace(old, new)] for a non-empty [old]: the occurrences are
    replaced from the left and do not overlap.  [skip] counts the
    characters of a matched occurrence that are still to be dropped. *)
Fixpoint replace_from (old new : string) (skip : nat) (s : string) : string :=
  match s with
  | EmptyString => EmptyString
  | String c s' =>
      match skip with
      | S k => replace_from old new k s'
      | O =>
          if startswith old s
          then new +:+ replace_from old new (String.length old - 1) s'
          else String c (replace_from old new 0 s')
      end
  end.

Definition replace (old new : string) (s : string) : string :=
  replace_from old new 0 s.

(** Every character of [s] is whitespace. *)
Definition all_space (s : string) : bool := forallb is_space (chars s).

(** [s] begins, respectively ends, with a whitespace character. *)
Definition starts_with_space (s : string) : bool :=
  match s with
  | EmptyString => false
  | String c _ => is_space c
  end.

Definition ends_with_space (s : string) : bool :=
  match last (chars s) with
  | Some c => is_space c
  | None => false
  end.

(** [needle] occurs in [hay]. *)
Definition occurs_in (needle hay : string) : Prop :=
  ∃ a b, hay = a +:+ needle +:+ b.

(** [needle in hay] on strings and on bytes. *)
Fixpoint contains (needle hay : string) : bool :=
  startswith needle hay ||
  match hay with
  | EmptyString => false
  | String _ hay' => contains needle hay'
  end.

End PyStr.

(** ** The values and outcomes of the Python code *)

(** The values a setting or a resolved command can hold. *)
Inductive pyval :=
| VStr (s : string)
| VInt (z : Z)
| VBool (b : bool)
| VNone.

(** The exceptions that leave the modelled methods. *)
Inductive pyexn :=
| AttributeError
| DataError (message : string).

(** A call either returns or raises. *)
Inductive pyresult (A : Type) :=
| Return (a : A)
| Raise (e : pyexn).
Arguments Return {A} a.
Arguments Raise {A} e.

(** [fmt % arg] for one string argument, on the fragment of format
    strings made of literal characters, [%%] and [%s].  [Some] is the
    string Python builds: that needs exactly one [%s], which takes the
    argument.  [None] stands for every other format string: Python raises
    on it (no [%s], a second [%s], a dangling [%]) or it uses a conversion
    outside this fragment.  [used] tells whether the argument was taken. *)
Fixpoint pyformat_from (used : bool) (fmt arg : string) : option string :=
  match fmt with
  | EmptyString => if used then Some "" else None
  | String c fmt1 =>
      if decide (c = "%"%char) then
        match fmt1 with
        | EmptyString => None
        | String d fmt2 =>
            if decide (d = "s"%char) then
              if used then None
              else (fun r => arg +:+ r) <$> pyformat_from true fmt2 arg
            else if decide (d = "%"%char) then
              String "%" <$> pyformat_from used fmt2 arg
            else None
        end
      else String c <$> pyformat_from used fmt1 arg
  end.

Definition pyformat (fmt arg : string) : option string :=
  pyformat_from false fmt arg.

(** [repr] of a bytes object, which is what [str] gives on it. *)
Module PyBytes.

Definition hex_digit (n : nat) : ascii :=
  ascii_of_nat (if Nat.ltb n 10 then 48 + n else 87 + n).

(** One byte inside the quotes [q]. *)
Definition repr_byte (q : ascii) (c : ascii) : string :=
  let n := nat_of_ascii c in
  if decide (c = q) then PyStr.backslash +:+ String c ""
  else if Nat.eqb n 92 then PyStr.backslash +:+ PyStr.backslash
  else if Nat.eqb n 9 then PyStr.backslash +:+ "t"
  else if Nat.eqb n 10 then PyStr.backslash +:+ "n"
  else if Nat.eqb n 13 then PyStr.backslash +:+ "r"
  else if Nat.ltb n 32 || Nat.leb 127 n
       then PyStr.backslash +:+ "x"
            +:+ String (hex_digit (n / 16)) (String (hex_digit (n mod 16)) "")
  else String c "".

Fixpoint repr_body (q : ascii) (b : string) : string :=
  match b with
  | EmptyString => EmptyString
  | String c b' => repr_byte q c +:+ repr_body q b'
  end.

(** Single quotes, unless the bytes hold a single quote and no double
    quote. *)
Definition repr (b : string) : string :=
  let q := if PyStr.contains PyStr.squote b && negb (PyStr.contains PyStr.dquote b)
           then ascii_of_nat 34 else ascii_of_nat 39 in
  "b" +:+ String q (repr_body q b +:+ String q "").

(** The bytes that [repr] shows as they are whatever the quotes: the
    printable ASCII characters but the two quotes and the backslash. *)
Definition plain_byte (c : ascii) : bool :=
  let n := nat_of_ascii c in
  Nat.leb 32 n && Nat.leb n 126
  && negb (Nat.eqb n 34) && negb (Nat.eqb n 39) && negb (Nat.eqb n 92).

Definition plain (b : string) : bool := forallb plain_byte (PyStr.chars b).

End PyBytes.

(** ** [os.path] on POSIX *)

Module posixpath.

Definition sep : ascii := "/"%char.

Definition isabs (p : string) : bool := PyStr.startswith "/" p.

(** [p[:p.rfind('/') + 1]] *)
Fixpoint upto_last_sep (p : string) : string :=
  match p with
  | EmptyString => EmptyString
  | String c p' =>
      match upto_last_sep p' with
      | EmptyString => if decide (c = sep) then "/" else EmptyString
      | r => String c r
      end
  end.

(** [p[p.rfind('/') + 1:]] *)
Definition after_last_sep (p : string) : string :=
  String.substring (String.length (upto_last_sep p))
                   (String.length p - String.length (upto_last_sep p)) p.

(** [s.rstrip('/')] *)
Fixpoint rstrip_sep (s : string) : string :=
  match s with
  | EmptyString => EmptyString
  | String c s' =>
      match rstrip_sep s' with
      | EmptyString => if decide (c = sep) then EmptyString else String c EmptyString
      | r => String c r
      end
  end.

Definition all_sep (s : string) : bool :=
  forallb (fun c => bool_decide (c = sep)) (PyStr.chars s).

Definition dirname (p : string) : string :=
  let head := upto_last_sep p in
  if PyStr.truthy head && negb (all_sep head) then rstrip_sep head else head.

(** [a.endswith('/')] *)
Definition endswith_sep (a : string) : bool :=
  match last (PyStr.chars a) with
  | Some c => bool_decide (c = sep)
  | None => false
  end.

Definition join (a b : string) : string :=
  if isabs b then b
  else if negb (PyStr.truthy a) || endswith_sep a then a +:+ b
  else a +:+ "/" +:+ b.

(** The loop of [normpath] over the components, [new_comps] being the
    components kept so far. *)
Fixpoint normpath_comps (initial_slashes : nat) (comps new_comps : list string)
  : list string :=
  match comps with
  | [] => new_comps
  | comp :: rest =>
      if bool_decide (comp = "") || bool_decide (comp = ".")
      then normpath_comps initial_slashes rest new_comps
      else if negb (bool_decide (comp = ".."))
              || (Nat.eqb initial_slashes 0 && bool_decide (new_comps = []))
              || bool_decide (last new_comps = Some "..")
      then normpath_comps initial_slashes rest (new_comps ++ [comp])
      else normpath_comps initial_slashes rest (removelast new_comps)
  end.

Definition normpath (path : string) : string :=
  if negb (PyStr.truthy path) then "."
  else
    let initial_slashes :=
      if negb (PyStr.startswith "/" path) then 0
      else if PyStr.startswith "//" path && negb (PyStr.startswith "///" path)
           then 2 else 1 in
    let comps := normpath_comps initial_slashes (PyStr.split_on sep path) [] in
    let path := PyStr.join "/" comps in
    let path :=
      match initial_slashes with
      | 0 => path
      | 1 => "/" +:+ path
      | _ => "//" +:+ path
      end in
    if PyStr.truthy path then path else ".".

(** [abspath], [cwd] being what [os.getcwd()] returns. *)
Definition abspath (cwd : string) (path : string) : string :=
  normpath (if isabs path then path else join cwd path).

(** [p[:p.rfind('.')]] and [p[p.rfind('.'):]], when [p] has a dot. *)
Fixpoint rsplit_dot (p : string) : option (string * string) :=
  match p with
  | EmptyString => None
  | String c p' =>
      match rsplit_dot p' with
      | Some (l, r) => Some (String c l, r)
      | None => if decide (c = "."%char) then Some ("", p) else None
      end
  end.

(** The extension starts at the last dot of the file name, unless only
    dots come before it in the file name. *)
Definition splitext (p : string) : string * string :=
  match rsplit_dot (after_last_sep p) with
  | Some (l, ext) =>
      if existsb (fun c => negb (bool_decide (c = "."%char))) (PyStr.chars l)
      then (upto_last_sep p +:+ l, ext)
      else (p, "")
  | None => (p, "")
  end.

End posixpath.


(** ** The collaborators of a profile *)

(** What the module asks of the operating system.  The [os.path]
    functions depend on the platform and are taken from it. *)
Record platform := {
  (** [robotide.context.IS_WINDOWS] *)
  IS_WINDOWS : bool;
  (** [os.name == "nt"] *)
  os_name_nt : bool;
  (** [os.path.abspath] *)
  abspath : string -> string;
  (** [os.path.dirname] *)
  dirname : string -> string;
  (** [os.path.splitext] *)
  splitext : string -> string * string;
  (** The bytes that [Popen(['echo', s], shell=True)] writes to its
      standard output; [None] when it raises [IOError]. *)
  popen_echo : string -> option string;
  (** [format_time(time.time(), '', '-', '')] at the time of the call. *)
  format_time_now : string
}.

(** A POSIX platform whose current directory is [cwd]. *)
Definition posix (cwd : string) (now : string) : platform := {|
  IS_WINDOWS := false;
  os_name_nt := false;
  abspath := posixpath.abspath cwd;
  dirname := posixpath.dirname;
  splitext := posixpath.splitext;
  popen_echo := fun _ => None;
  format_time_now := now
|}.

(** How a version query of an executable ends: [subprocess.call] returns
    the exit status, or raises [OSError] when the process cannot be
    spawned. *)
Inductive probe_outcome :=
| Exit (status : Z)
| SpawnFails.

(** The environment of the probes: the outcome of the [n]-th call of
    [subprocess.call], given its argument vector. *)
Definition prober := nat -> list string -> probe_outcome.

(** [pluginapi.RideLogMessage(message, notify_user=...)] *)
Record RideLogMessage := {
  message : string;
  notify_user : bool
}.

(** What a profile class declares and overrides. *)
Record profile_class := {
  name : string;
  default_settings : gmap string pyval;
  (** the [_create_error_log_message] of the class *)
  create_error_log_message : string -> Z -> option RideLogMessage
}.

(** The state of a profile instance that the modelled methods read: the
    values its settings resolve to, the arguments last defined in the
    toolbar and the name of the suite of the plugin's model. *)
Record profile := {
  arguments : string;
  output_directory : string;
  include_tags : string;
  exclude_tags : string;
  are_log_names_with_suite_name : bool;
  are_log_names_with_timestamp : bool;
  are_saving_logs : bool;
  apply_include_tags : bool;
  apply_exclude_tags : bool;
  runner_script : string;
  _defined_arguments : string;
  suite_name : string
}.

Definition set_defined_arguments (v : string) (p : profile) : profile :=
  {| arguments := arguments p; output_directory := output_directory p;
     include_tags := include_tags p; exclude_tags := exclude_tags p;
     are_log_names_with_suite_name := are_log_names_with_suite_name p;
     are_log_names_with_timestamp := are_log_names_with_timestamp p;
     are_saving_logs := are_saving_logs p;
     apply_include_tags := apply_include_tags p;
     apply_exclude_tags := apply_exclude_tags p;
     runner_script := runner_script p;
     _defined_arguments := v; suite_name := suite_name p |}.

Definition set_output_directory (v : string) (p : profile) : profile :=
  {| arguments := arguments p; output_directory := v;
     include_tags := include_tags p; exclude_tags := exclude_tags p;
     are_log_names_with_suite_name := are_log_names_with_suite_name p;
     are_log_names_with_timestamp := are_log_names_with_timestamp p;
     are_saving_logs := are_saving_logs p;
     apply_include_tags := apply_include_tags p;
     apply_exclude_tags := apply_exclude_tags p;
     runner_script := runner_script p;
     _defined_arguments := _defined_arguments p; suite_name := suite_name p |}.

Definition set_runner_script (v : string) (p : profile) : profile :=
  {| arguments := arguments p; output_directory := output_directory p;
     include_tags := include_tags p; exclude_tags := exclude_tags p;
     are_log_names_with_suite_name := are_log_names_with_suite_name p;
     are_log_names_with_timestamp := are_log_names_with_timestamp p;
     are_saving_logs := are_saving_logs p;
     apply_include_tags := apply_include_tags p;
     apply_exclude_tags := apply_exclude_tags p;
     runner_script := v;
     _defined_arguments := _defined_arguments p; suite_name := suite_name p |}.

Definition set_apply_tags (inc exc : bool) (p : profile) : profile :=
  {| arguments := arguments p; output_directory := output_directory p;
     include_tags := include_tags p; exclude_tags := exclude_tags p;
     are_log_names_with_suite_name := are_log_names_with_suite_name p;
     are_log_names_with_timestamp := are_log_names_with_timestamp p;
     are_saving_logs := are_saving_logs p;
     apply_include_tags := inc;
     apply_exclude_tags := exc;
     runner_script := runner_script p;
     _defined_arguments := _defined_arguments p; suite_name := suite_name p |}.

(** ** [BaseProfile] *)

Module BaseProfile.

Definition get_command : string := "robot".

Definition get_command_args : list string := [].

Definition get_settings : list string := [].

(** The method of the class of the instance is the one called. *)
Definition format_error (cls : profile_class) (error : string) (returncode : Z)
  : string * option RideLogMessage :=
  (error, create_error_log_message cls error returncode).

Definition _create_error_log_message (error : string) (returncode : Z)
  : option RideLogMessage := None.

Definition _get_setting_name (cls : profile_class) (attr : string) : string :=
  PyStr.replace " " "_" (name cls) +:+ "_" +:+ attr.

(** [__getattr__], which Python calls for an attribute that the normal
    lookup does not find.  [plugin] holds the attributes that [getattr]
    finds on the plugin; on the others it raises [AttributeError]. *)
Definition __getattr__ (cls : profile_class) (plugin : gmap string pyval)
           (attr : string) : pyresult pyval :=
  match plugin !! _get_setting_name cls attr with
  | Some v => Return v
  | None =>
      match plugin !! attr with
      | Some v => Return v
      | None =>
          match default_settings cls !! attr with
          | Some v => Return v
          | None => Raise AttributeError
          end
      end
  end.

(** Modelled from the spec: [save_setting] belongs to the host plugin,
    which is not part of the source given.  By the spec the plugin is the
    store of the persisted settings, written through
    [save_setting(key, value, delay)] and read by attribute access: a saved
    setting is the attribute of its name from then on.  The delay only
    postpones the write to the disk. *)
Definition save_setting (plugin : gmap string pyval) (key : string) (value : pyval)
  : gmap string pyval :=
  <[key := value]> plugin.

(** [set_setting]: the plugin as the call leaves it. *)
Definition set_setting (cls : profile_class) (plugin : gmap string pyval)
           (setting : string) (value : pyval) : gmap string pyval :=
  save_setting plugin (_get_setting_name cls setting) value.

End BaseProfile.

Definition RF_INSTALLATION_NOT_FOUND : string :=
  "Robot Framework installation not found.<br>
To run tests, you need to install Robot Framework separately.<br>
See <a href=" +:+ PyStr.dquote +:+ "http://robotframework.org" +:+ PyStr.dquote
  +:+ ">http://robotframework.org</a> for
installation instructions.
".

(** ** [PybotProfile] *)

Module PybotProfile.

(** The probes [get_command] made, in order, each with its outcome. *)
Definition probe_log := list (string * probe_outcome).

(** The handler of the outer [except OSError]; [n] calls were made. *)
Definition get_command_legacy (nt : bool) (call : prober) (n : nat)
           (log : probe_log) : pyval * probe_log :=
  let pybot := if nt then "pybot.bat" else "pybot" in
  match call n [pybot; "--version"] with
  | Exit result =>
      if decide (result = 251%Z)
      then (VStr pybot, log ++ [(pybot, Exit result)])
      else (VInt result, log ++ [(pybot, Exit result)])
  | SpawnFails => (VStr "no pybot", log ++ [(pybot, SpawnFails)])
  end.

Definition get_command (nt : bool) (call : prober) : pyval * probe_log :=
  let robot := if nt then "robot.bat" else "robot" in
  match call 0 ["robot"; "--version"] with
  | Exit result =>
      if decide (result = 251%Z) then (VStr "robot", [("robot", Exit result)])
      else
        match call 1 [robot; "--version"] with
        | Exit result2 =>
            if decide (result2 = 251%Z)
            then (VStr robot, [("robot", Exit result); (robot, Exit result2)])
            else (VInt result2, [("robot", Exit result); (robot, Exit result2)])
        | SpawnFails =>
            get_command_legacy nt call 2
              [("robot", Exit result); (robot, SpawnFails)]
        end
  | SpawnFails => get_command_legacy nt call 1 [("robot", SpawnFails)]
  end.

Definition _parse_windows_command (os : platform) (p : profile) : profile :=
  match popen_echo os (arguments p) with
  | Some output =>
      let output := PyStr.strip (PyStr.lstrip_chars ("b" +:+ PyStr.squote)
                                                    (PyBytes.repr output)) in
      set_defined_arguments
        (PyStr.replace (PyStr.backslash +:+ "r" +:+ PyStr.backslash +:+ "n") ""
           (PyStr.replace (PyStr.backslash +:+ PyStr.backslash) PyStr.backslash
              (PyStr.replace PyStr.squote ""
                 (PyStr.replace PyStr.dquote "" output))))
        p
  | None => p
  end.

Definition _get_arguments (os : platform) (p : profile) : list string * profile :=
  let p := if IS_WINDOWS os then _parse_windows_command os p else p in
  (PyStr.split (_defined_arguments p), p).

Definition tag_of (tag : string) : string :=
  PyStr.replace " " "" (PyStr.strip tag).

(** The loop of [_get_tags_from_string] over the pieces that are left. *)
Fixpoint tags_loop (pieces : list string) (tags : list string) : list string :=
  match pieces with
  | [] => tags
  | tag :: rest =>
      let tag := tag_of tag in
      if Nat.ltb 0 (String.length tag)
      then tags_loop rest (tags ++ [tag])
      else tags_loop rest tags
  end.

Definition _get_tags_from_string (tag_string : string) : list string :=
  tags_loop (PyStr.split_on "," tag_string) [].

(** [for t in tags: args.append(prefix % t)] *)
Fixpoint append_tags (prefix : string) (tags : list string) (args : list string)
  : list string :=
  match tags with
  | [] => args
  | t :: rest => append_tags prefix rest (args ++ [prefix +:+ t])
  end.

(** [x not in args] *)
Definition not_in (x : string) (args : list string) : bool :=
  negb (bool_decide (x ∈ args)).

(** [args.extend([short, log_name_format % file])], when neither the
    long nor the short flag is in [args]. *)
Definition extend_unless (long short : string) (log_name_format file : string)
           (args : list string) : option (list string) :=
  if not_in long args && not_in short args
  then v ← pyformat log_name_format file; Some (args ++ [short; v])
  else Some args.

(** The steps of [get_command_args], one for each [if] statement of
    the method, in its order.  Each takes the list [args] built so far. *)

Definition args_output_directory (os : platform) (p : profile)
           (args : list string) : list string :=
  if PyStr.truthy (output_directory p)
     && not_in "--outputdir" args && not_in "-d" args
  then args ++ ["-d"; abspath os (output_directory p)]
  else args.

(** Returns [log_name_format] too, which the next step reads. *)
Definition args_suite_name (p : profile) (args : list string)
  : option (string * list string) :=
  let log_name_format := "%s" in
  if are_log_names_with_suite_name p then
    let log_name_format := suite_name p +:+ "-%s" in
    args ← extend_unless "--log" "-l" log_name_format "Log.html" args;
    args ← extend_unless "--report" "-r" log_name_format "Report.html" args;
    args ← extend_unless "--output" "-o" log_name_format "Output.xml" args;
    Some (log_name_format, args)
  else Some (log_name_format, args).

Definition args_saving_logs (p : profile) (log_name_format : string)
           (args : list string) : option (list string) :=
  if are_saving_logs p
  then extend_unless "--debugfile" "-b" log_name_format "Message.log" args
  else Some args.

Definition args_timestamp (p : profile) (args : list string) : list string :=
  if are_log_names_with_timestamp p
     && not_in "--timestampoutputs" args && not_in "-T" args
  then args ++ ["-T"]
  else args.

Definition args_include (p : profile) (args : list string) : list string :=
  if apply_include_tags p && PyStr.truthy (include_tags p)
  then append_tags "--include=" (_get_tags_from_string (include_tags p)) args
  else args.

Definition args_exclude (p : profile) (args : list string) : list string :=
  if apply_exclude_tags p && PyStr.truthy (exclude_tags p)
  then append_tags "--exclude=" (_get_tags_from_string (exclude_tags p)) args
  else args.

(** The list returned and the profile as the call leaves it.  [None]
    when a [log_name_format % ...] of the method is outside the fragment
    of [pyformat]. *)
Definition get_command_args (os : platform) (p : profile)
  : option (list string * profile) :=
  let '(args, p) := _get_arguments os p in
  let args := args_output_directory os p args in
  '(log_name_format, args) ← args_suite_name p args;
  args ← args_saving_logs p log_name_format args;
  let args := args_timestamp p args in
  let args := args_include p args in
  let args := args_exclude p args in
  Some (args, p).

Definition get_settings (os : platform) (p : profile) : list string :=
  let settings := [] in
  if are_saving_logs p then
    let name := "Console.txt" in
    let name :=
      if are_log_names_with_timestamp p then
        let start_timestamp := format_time_now os in
        let '(base, ext) := splitext os name in
        let base := base +:+ "-" +:+ start_timestamp in
        base +:+ ext
      else name in
    let name :=
      if are_log_names_with_suite_name p
      then suite_name p +:+ "-" +:+ name
      else name in
    settings ++ ["console_log_name"; name]
  else settings.

Definition _create_error_log_message (error : string) (returncode : Z)
  : option RideLogMessage :=
  if PyStr.contains "not found" error
     || bool_decide (returncode = 127%Z)
     || PyStr.contains "system cannot find the file specified" error
  then Some {| message := RF_INSTALLATION_NOT_FOUND; notify_user := true |}
  else None.

(** What [ArgumentParser(USAGE).parse_args] does on a token list, as
    [_get_invalid_message] observes it: it returns a pair whose second
    component [invalid] is seen through [bool(invalid)] and
    [str(invalid)], or it raises [Information], or it raises another
    exception, whose [message] attribute may be missing. *)
Inductive parse_outcome :=
| Parsed (invalid_truthy : bool) (invalid_str : string)
| RaisesInformation
| RaisesOther (message : option string).

Definition parser := list string -> parse_outcome.

(** The loop over [enumerate(clean_args)], at index [idx] with [items]
    still to visit.  [None] is the [IndexError] of [clean_args[idx][0]]
    on an empty piece. *)
Fixpoint clean_loop (idx : nat) (items : list string) (clean_args : list string)
  : option (list string) :=
  match items with
  | [] => Some clean_args
  | item :: rest =>
      let clean_args := <[idx := PyStr.strip item]> clean_args in
      match clean_args !! idx with
      | Some (String c _) =>
          if decide (c ≠ "-"%char)
          then clean_loop (S idx) rest (<[idx := "arg"]> clean_args)
          else clean_loop (S idx) rest clean_args
      | _ => None
      end
  end.

(** [raise DataError(e.message)] in the handler of [except Exception]:
    reading [message] on an exception that has none raises
    [AttributeError] instead. *)
Definition reraise {A : Type} (message : option string) : pyresult A :=
  match message with
  | Some m => Raise (DataError m)
  | None => Raise AttributeError
  end.

Definition _get_invalid_message (parse_args : parser) (args : string)
  : pyresult (option string) :=
  if negb (PyStr.truthy args) then Return None
  else
    let clean_args := PyStr.split_on "`" args in
    match clean_loop 0 clean_args clean_args with
    | None => reraise None
    | Some clean_args =>
        let args := PyStr.join " " clean_args in
        match parse_args (PyStr.split args) with
        | RaisesInformation =>
            Return (Some "Does not execute - help or version option given")
        | RaisesOther message => reraise message
        | Parsed invalid_truthy invalid_str =>
            if invalid_truthy
            then Return (Some ("Unknown option(s): " +:+ invalid_str))
            else Return None
        end
    end.

(** What the method makes of the outcome of the parser. *)
Definition verdict (outcome : parse_outcome) : pyresult (option string) :=
  match outcome with
  | RaisesInformation =>
      Return (Some "Does not execute - help or version option given")
  | RaisesOther message => reraise message
  | Parsed invalid_truthy invalid_str =>
      if invalid_truthy
      then Return (Some ("Unknown option(s): " +:+ invalid_str))
      else Return None
  end.

(** [bool(invalid_message)] *)
Definition message_truthy (invalid_message : option string) : bool :=
  match invalid_message with
  | Some m => PyStr.truthy m
  | None => false
  end.

(** What [_validate_arguments] hands to the text control: background,
    foreground and tool tip.  [bg] and [fg] are the secondary colours of
    the settings dialog. *)
Definition _validate_arguments (parse_args : parser) (bg fg : string)
           (args : string) : pyresult (string * string * string) :=
  match _get_invalid_message parse_args args with
  | Raise e => Raise e
  | Return invalid_message =>
      Return (if message_truthy invalid_message then "red" else bg,
              if message_truthy invalid_message then "white" else fg,
              match invalid_message with
              | Some m =>
                  if PyStr.truthy m then m
                  else "Arguments for the test run. Arguments are space separated list."
              | None =>
                  "Arguments for the test run. Arguments are space separated list."
              end)
  end.

Definition cls : profile_class := {|
  name := "robot";
  default_settings :=
    {[ "arguments" := VStr "";
       "output_directory" := VStr "";
       "include_tags" := VStr "";
       "exclude_tags" := VStr "";
       "are_log_names_with_suite_name" := VBool false;
       "are_log_names_with_timestamp" := VBool false;
       "are_saving_logs" := VBool false;
       "apply_include_tags" := VBool false;
       "apply_exclude_tags" := VBool false ]};
  create_error_log_message := _create_error_log_message
|}.

End PybotProfile.

(** ** [CustomScriptProfile] *)

Module CustomScriptProfile.

Definition get_command (p : profile) : string :=
  PyStr.strip (runner_script p).

Definition get_cwd (os : platform) (p : profile) : string :=
  dirname os (runner_script p).

Definition _create_error_log_message (error : string) (returncode : Z)
  : option RideLogMessage := None.

Definition cls : profile_class := {|
  name := "custom script";
  default_settings :=
    <["runner_script" := VStr ""]> (default_settings PybotProfile.cls);
  create_error_log_message := _create_error_log_message
|}.

End CustomScriptProfile.

(** ** The argument parser of the validation *)

(** The option tokens that the spec lists for the runner. *)
Definition spec_options : list string :=
  ["--outputdir"; "-d"; "--log"; "-l"; "--report"; "-r"; "--output"; "-o";
   "--debugfile"; "-b"; "--timestampoutputs"; "-T"; "--include"; "--exclude"].

(** Modelled from the spec: [ArgumentParser] of [robotide.utils] and
    [USAGE] of [robotide.contrib.testrunner.usages] are not part of the
    source given.  By the spec the token stream is parsed against the known
    option grammar of the runner; a help or version query is signalled as
    such, and the names of the unknown options are reported.  The known
    options are the flags that the spec lists and the tokens
    [--include=<tag>] and [--exclude=<tag>]. *)
Definition usage_parse_args (tokens : list string) : PybotProfile.parse_outcome :=
  if existsb (fun t => bool_decide (t ∈ ["--help"; "-h"; "-?"; "--version"])) tokens
  then PybotProfile.RaisesInformation
  else
    let unknown :=
      filter (fun t => PyStr.startswith "-" t = true ∧ (t ∉ spec_options)
                       ∧ PyStr.startswith "--include=" t = false
                       ∧ PyStr.startswith "--exclude=" t = false) tokens in
    PybotProfile.Parsed (bool_decide (unknown ≠ [])) (PyStr.join ", " unknown).

(** ** Sample inputs *)

(** A profile whose settings have their declared defaults. *)
Definition default_profile : profile := {|
  arguments := ""; output_directory := ""; include_tags := ""; exclude_tags := "";
  are_log_names_with_suite_name := false; are_log_names_with_timestamp := false;
  are_saving_logs := false; apply_include_tags := false; apply_exclude_tags := false;
  runner_script := ""; _defined_arguments := ""; suite_name := ""
|}.

(** A profile with the given tag settings and nothing else set. *)
Definition tags_profile (apply_inc : bool) (inc : string)
           (apply_exc : bool) (exc : string) : profile := {|
  arguments := ""; output_directory := ""; include_tags := inc; exclude_tags := exc;
  are_log_names_with_suite_name := false; are_log_names_with_timestamp := false;
  are_saving_logs := false; apply_include_tags := apply_inc;
  apply_exclude_tags := apply_exc;
  runner_script := ""; _defined_arguments := ""; suite_name := ""
|}.


(** A profile with the given logging toggles, of the suite [suite]. *)
Definition logging_profile (saving timestamp with_suite : bool) (suite : string)
  : profile := {|
  arguments := ""; output_directory := ""; include_tags := ""; exclude_tags := "";
  are_log_names_with_suite_name := with_suite;
  are_log_names_with_timestamp := timestamp;
  are_saving_logs := saving; apply_include_tags := false; apply_exclude_tags := false;
  runner_script := ""; _defined_arguments := ""; suite_name := suite
|}.

(** A parser that signals a help query on every token list. *)
Definition help_parser : PybotProfile.parser :=
  fun _ => PybotProfile.RaisesInformation.

(** A Windows host on which [robot] cannot be spawned, [robot.bat]
    answers the version query and there is no [pybot.bat]. *)
Definition only_robot_bat : prober :=
  fun _ argv =>
    match argv with
    | "robot.bat" :: _ => Exit 251
    | _ => SpawnFails
    end.

(** A host on which every candidate starts and exits with status 1. *)
Definition all_exit_1 : prober := fun _ _ => Exit 1.

(** A host with no [robot] whose [pybot] answers the version query. *)
Definition only_pybot : prober :=
  fun _ argv =>
    match argv with
    | "pybot" :: _ => Exit 251
    | _ => SpawnFails
    end.

(** ** The command resolution in the words of the spec *)

(** The candidates are probed in their order; the first whose version
    query exits with 251 is the command; a candidate that fails, by its
    spawn or by its status, gives way to the next; the sentinel is left
    when all have failed. *)
Fixpoint probe_in_order (call : prober) (n : nat) (candidates : list string)
  : pyval :=
  match candidates with
  | [] => VStr "no pybot"
  | c :: rest =>
      match call n [c; "--version"] with
      | Exit status =>
          if decide (status = 251%Z) then VStr c
          else probe_in_order call (S n) rest
      | SpawnFails => probe_in_order call (S n) rest
      end
  end.

Definition get_command_as_specified (nt : bool) (call : prober) : pyval :=
  probe_in_order call 0
    ["robot"; if nt then "robot.bat" else "robot"; if nt then "pybot.bat" else "pybot"].

(** The line end of [cmd.exe]. *)
Definition crlf : string := String (ascii_of_nat 13) (String (ascii_of_nat 10) "").

(** A Windows host whose [echo] prints its argument as it is, followed by
    the line end, as [cmd.exe] does for an argument without blanks.  Only
    the echo is of interest here: the path functions are left trivial. *)
Definition echo_host : platform := {|
  IS_WINDOWS := true;
  os_name_nt := true;
  abspath := fun p => p;
  dirname := fun p => p;
  splitext := fun p => (p, "");
  popen_echo := fun s => Some (s +:+ crlf);
  format_time_now := ""
|}.

(** A profile of the suite [suite] with every toggle set, the given
    arguments and output directory, and tag filters. *)
Definition full_profile (args out suite : string) : profile := {|
  arguments := args; output_directory := out;
  include_tags := "smoke, fast"; exclude_tags := "slow";
  are_log_names_with_suite_name := true; are_log_names_with_timestamp := true;
  are_saving_logs := true; apply_include_tags := true; apply_exclude_tags := true;
  runner_script := ""; _defined_arguments := args; suite_name := suite
|}.



(** * Checks of the embedding on sample inputs *)


Example split_sample :
  PyStr.split "  -d  out --name x " = ["-d"; "out"; "--name"; "x"].
Proof. vm_compute. reflexivity. Qed.

Example split_on_sample :
  PyStr.split_on "," "a, b ,c,," = ["a"; " b "; "c"; ""; ""].
Proof. vm_compute. reflexivity. Qed.

Example replace_sample :
  PyStr.replace "aa" "b" "aaaxaa" = "baxb".
Proof. vm_compute. reflexivity. Qed.

Example strip_sample : PyStr.strip "  /opt/run.sh  " = "/opt/run.sh".
Proof. vm_compute. reflexivity. Qed.

Example dirname_samples :
  map posixpath.dirname ["/opt/run.sh"; "run.sh"; "/run.sh"; "//a"; "/a/b/"; "a//b"]
  = ["/opt"; ""; "/"; "//"; "/a/b"; "a"].
Proof. vm_compute. reflexivity. Qed.

Example abspath_samples :
  map (posixpath.abspath "/home/ride") ["out"; "../x/./y/"; "/tmp//logs"; "//srv"; "../../.."]
  = ["/home/ride/out"; "/home/x/y"; "/tmp/logs"; "//srv"; "/"].
Proof. vm_compute. reflexivity. Qed.

Example splitext_samples :
  map posixpath.splitext ["Console.txt"; "/a.b/c"; ".bashrc"; "..a.b"; "x."]
  = [("Console", ".txt"); ("/a.b/c", ""); (".bashrc", ""); ("..a", ".b"); ("x", ".")].
Proof. vm_compute. reflexivity. Qed.

Example bytes_repr_sample :
  PyBytes.repr ("-d out" +:+ String (ascii_of_nat 13) (String (ascii_of_nat 10) ""))
  = "b" +:+ PyStr.squote +:+ "-d out" +:+ PyStr.backslash +:+ "r"
        +:+ PyStr.backslash +:+ "n" +:+ PyStr.squote.
Proof. vm_compute. reflexivity. Qed.

Example pyformat_samples :
  map (fun f => pyformat f "Log.html") ["%s"; "Smoke-%s"; "50%%-%s"; "a%s-%s"; "100%-%s"; "x"]
  = [Some "Log.html"; Some "Smoke-Log.html"; Some "50%-Log.html"; None; None; None].
Proof. vm_compute. reflexivity. Qed.

(** * Facts on the string primitives *)

Section string_facts.
Implicit Types (s t p : string) (c : ascii).

Lemma string_app_nil_r s : s +:+ "" = s.
Proof. induction s as [|c s IH]; [done|]. unfold String.app in *. simpl. by rewrite IH. Qed.

Lemma string_app_assoc s t u : (s +:+ t) +:+ u = s +:+ t +:+ u.
Proof. induction s as [|c s IH]; [done|]. unfold String.app in *. simpl. by rewrite IH. Qed.

Lemma string_app_cons c s t : String c s +:+ t = String c (s +:+ t).
Proof. done. Qed.

Lemma startswith_app p s : PyStr.startswith p (p +:+ s) = true.
Proof.
  induction p as [|a p IH]; [done|].
  rewrite string_app_cons. simpl. by rewrite decide_True.
Qed.

Lemma startswith_inv p s :
  PyStr.startswith p s = true → ∃ r, s = p +:+ r.
Proof.
  revert s. induction p as [|a p IH]; intros s H.
  - by exists s.
  - destruct s as [|b s]; [done|]. simpl in H.
    destruct (decide (a = b)) as [->|]; [|done].
    destruct (IH _ H) as [r ->]. by exists r.
Qed.

Lemma contains_app a n b : PyStr.contains n (a +:+ n +:+ b) = true.
Proof.
  induction a as [|c a IH].
  - change ("" +:+ n +:+ b) with (n +:+ b).
    destruct (n +:+ b) eqn:E; simpl; rewrite <- E, startswith_app; done.
  - rewrite string_app_cons. simpl. rewrite IH. by rewrite orb_true_r.
Qed.

Lemma contains_inv n h :
  PyStr.contains n h = true → ∃ a b, h = a +:+ n +:+ b.
Proof.
  induction h as [|c h IH]; simpl; intros H.
  - rewrite orb_false_r in H. destruct (startswith_inv _ _ H) as [r ->].
    by exists "", r.
  - apply orb_true_iff in H as [H|H].
    + destruct (startswith_inv _ _ H) as [r ->]. by exists "", r.
    + destruct (IH H) as (a & b & ->). by exists (String c a), b.
Qed.

Lemma rstrip_spec s :
  ∃ r, s = PyStr.rstrip s +:+ r ∧ PyStr.all_space r = true
       ∧ PyStr.ends_with_space (PyStr.rstrip s) = false.
Proof.
  induction s as [|c s (r & Hs & Hr & He)].
  - by exists "".
  - simpl. destruct (PyStr.rstrip s) as [|a t] eqn:E.
    + destruct (PyStr.is_space c) eqn:Hc.
      * exists (String c s). split; [done|]. split; [|done].
        change ("" +:+ r) with r in Hs. subst r.
        unfold PyStr.all_space in *. simpl. by rewrite Hc.
      * exists r. split; [by rewrite Hs at 1|]. split; [done|].
        unfold PyStr.ends_with_space. simpl. done.
    + exists r. split; [by rewrite Hs at 1|]. split; [done|]. exact He.
Qed.

Lemma lstrip_spec s :
  ∃ l, s = l +:+ PyStr.lstrip s ∧ PyStr.all_space l = true
       ∧ PyStr.starts_with_space (PyStr.lstrip s) = false.
Proof.
  induction s as [|c s (l & Hs & Hl & Hb)].
  - by exists "".
  - simpl. destruct (PyStr.is_space c) eqn:Hc.
    + exists (String c l). split; [by rewrite Hs at 1|]. split; [|done].
      unfold PyStr.all_space in *. simpl. by rewrite Hc.
    + exists "". split; [done|]. split; [done|]. done.
Qed.

Lemma lstrip_keeps_end s :
  PyStr.ends_with_space s = false →
  PyStr.ends_with_space (PyStr.lstrip s) = false.
Proof.
  induction s as [|c s IH]; [done|]. intros H. simpl.
  destruct (PyStr.is_space c) eqn:Hc; [|done].
  apply IH. destruct s as [|b s]; [done|]. exact H.
Qed.

Lemma strip_spec s :
  (∃ l r, s = l +:+ PyStr.strip s +:+ r
          ∧ PyStr.all_space l = true ∧ PyStr.all_space r = true)
  ∧ PyStr.starts_with_space (PyStr.strip s) = false
  ∧ PyStr.ends_with_space (PyStr.strip s) = false.
Proof.
  unfold PyStr.strip.
  destruct (rstrip_spec s) as (r & Hs & Hr & He).
  destruct (lstrip_spec (PyStr.rstrip s)) as (l & Hl & Hla & Hb).
  split; [|split; [done|by apply lstrip_keeps_end]].
  exists l, r. split; [|done].
  rewrite <- string_app_assoc, <- Hl. exact Hs.
Qed.
End string_facts.

(** * [CustomScriptProfile]: the command and its directory *)

(** C9: [CustomScriptProfile.get_command] returns the script path with its
    leading and trailing whitespace stripped: the setting is the command
    between two runs of whitespace, and the command neither begins nor
    ends with whitespace.  For ["  /opt/run.sh  "] it is ["/opt/run.sh"]. *)
Theorem custom_get_command_strips (p : profile) :
  (∃ l r, runner_script p = l +:+ CustomScriptProfile.get_command p +:+ r
          ∧ PyStr.all_space l = true ∧ PyStr.all_space r = true)
  ∧ PyStr.starts_with_space (CustomScriptProfile.get_command p) = false
  ∧ PyStr.ends_with_space (CustomScriptProfile.get_command p) = false
  ∧ CustomScriptProfile.get_command (set_runner_script "  /opt/run.sh  " p)
    = "/opt/run.sh".
Proof.
  unfold CustomScriptProfile.get_command.
  destruct (strip_spec (runner_script p)) as (Hd & Hb & He).
  repeat split; try done.
Qed.

(** C10, at the failing input: for the script ["  /opt/run.sh  "] on a
    POSIX host [get_cwd] gives ["  /opt"], the directory of the setting as
    it was typed, where the directory of the command that [get_command]
    returns is ["/opt"]. *)
Theorem custom_get_cwd_of_unstripped_script (cwd now : string) (p : profile) :
  let p := set_runner_script "  /opt/run.sh  " p in
  CustomScriptProfile.get_cwd (posix cwd now) p = "  /opt"
  ∧ dirname (posix cwd now) (CustomScriptProfile.get_command p) = "/opt"
  ∧ CustomScriptProfile.get_cwd (posix cwd now) p
    ≠ dirname (posix cwd now) (CustomScriptProfile.get_command p).
Proof. repeat split; try (vm_compute; reflexivity). vm_compute. discriminate. Qed.

(** * Failure classification *)

Lemma contains_occurs n h : PyStr.contains n h = true ↔ PyStr.occurs_in n h.
Proof.
  split; [apply contains_inv|]. intros (a & b & ->). apply contains_app.
Qed.

(** C5 (as amended): [PybotProfile.format_error] returns the stderr
    unchanged and, as second element, the installation guidance exactly
    when the stderr contains [not found], or the return code is 127, or
    the stderr contains [system cannot find the file specified]; it
    returns [None] there for every other input.  [CustomScriptProfile]
    returns [None] there for every input. *)
Theorem format_error_classification (error : string) (returncode : Z) :
  let guidance := {| message := RF_INSTALLATION_NOT_FOUND; notify_user := true |} in
  let not_installed :=
    PyStr.occurs_in "not found" error ∨ returncode = 127%Z
    ∨ PyStr.occurs_in "system cannot find the file specified" error in
  (BaseProfile.format_error PybotProfile.cls error returncode).1 = error
  ∧ ((BaseProfile.format_error PybotProfile.cls error returncode).2 = Some guidance
     ∧ not_installed
     ∨ (BaseProfile.format_error PybotProfile.cls error returncode).2 = None
       ∧ ¬ not_installed)
  ∧ BaseProfile.format_error CustomScriptProfile.cls error returncode = (error, None).
Proof.
  simpl. split; [done|]. split; [|done].
  unfold PybotProfile._create_error_log_message.
  destruct (PyStr.contains "not found" error) eqn:H1; simpl.
  { left. split; [done|]. left. by apply contains_occurs. }
  case_bool_decide as H2; simpl.
  { left. split; [done|]. by right; left. }
  destruct (PyStr.contains "system cannot find the file specified" error) eqn:H3.
  { left. split; [done|]. right; right. by apply contains_occurs. }
  right. split; [done|]. intros [H|[H|H]]; [|done|].
  - apply contains_occurs in H. congruence.
  - apply contains_occurs in H. congruence.
Qed.

(** C5, the claim as stated fails: a stderr with the Windows phrase, which
    does not contain [not found], and a return code other than 127 give
    the guidance, not [None]. *)
Lemma format_error_windows_phrase :
  ¬ PyStr.occurs_in "not found" "The system cannot find the file specified."
  ∧ 1%Z ≠ 127%Z
  ∧ (BaseProfile.format_error PybotProfile.cls
       "The system cannot find the file specified." 1).2 ≠ None.
Proof.
  split; [|split; [done|]].
  - intros H. apply contains_occurs in H. vm_compute in H. discriminate.
  - vm_compute. discriminate.
Qed.

(** * Extra settings *)

(** C7: when the logs are saved and the log names take neither the time
    stamp nor the suite name, [get_settings] is
    [['console_log_name', 'Console.txt']]; when the logs are not saved it
    is the empty list. *)
Theorem get_settings_console_log (os : platform) (p : profile) :
  (are_saving_logs p = true → are_log_names_with_timestamp p = false →
   are_log_names_with_suite_name p = false →
   PybotProfile.get_settings os p = ["console_log_name"; "Console.txt"])
  ∧ (are_saving_logs p = false → PybotProfile.get_settings os p = []).
Proof.
  unfold PybotProfile.get_settings. split.
  - intros -> -> ->. reflexivity.
  - intros ->. reflexivity.
Qed.

(** The two cases of [get_settings_console_log] on the suite [Smoke]. *)
Lemma get_settings_console_log_witness :
  PybotProfile.get_settings (posix "/home/ride" "20240101-101010")
    (logging_profile true false false "Smoke")
  = ["console_log_name"; "Console.txt"]
  ∧ PybotProfile.get_settings (posix "/home/ride" "20240101-101010")
      (logging_profile false true true "Smoke") = [].
Proof.
  split.
  - apply (proj1 (get_settings_console_log _ _)); reflexivity.
  - apply (proj2 (get_settings_console_log _ _)); reflexivity.
Defined.

(** * Settings lookup *)

(** C6: [__getattr__] resolves an attribute first to the plugin setting
    named after the profile and the attribute, then to the plugin
    attribute of the same name, then to the declared default, and raises
    [AttributeError] when none of the three exists.  The profile name
    enters the setting name with its spaces replaced by underscores. *)
Theorem getattr_resolution (cls : profile_class) (plugin : gmap string pyval)
        (attr : string) :
  let setting := BaseProfile._get_setting_name cls attr in
  (∀ v, plugin !! setting = Some v →
        BaseProfile.__getattr__ cls plugin attr = Return v)
  ∧ (∀ v, plugin !! setting = None → plugin !! attr = Some v →
          BaseProfile.__getattr__ cls plugin attr = Return v)
  ∧ (∀ v, plugin !! setting = None → plugin !! attr = None →
          default_settings cls !! attr = Some v →
          BaseProfile.__getattr__ cls plugin attr = Return v)
  ∧ (plugin !! setting = None → plugin !! attr = None →
     default_settings cls !! attr = None →
     BaseProfile.__getattr__ cls plugin attr = Raise AttributeError)
  ∧ BaseProfile._get_setting_name PybotProfile.cls attr = "robot_" +:+ attr
  ∧ BaseProfile._get_setting_name CustomScriptProfile.cls attr
    = "custom_script_" +:+ attr.
Proof.
  unfold BaseProfile.__getattr__. simpl.
  repeat split.
  - by intros v ->.
  - by intros v -> ->.
  - by intros v -> -> ->.
  - by intros -> -> ->.
Qed.

(** The four cases of [getattr_resolution]: a profile setting of the
    plugin, a plugin attribute, a declared default, and a failed lookup. *)
Lemma getattr_resolution_witness :
  BaseProfile.__getattr__ PybotProfile.cls
    {[ "robot_arguments" := VStr "-d out"; "arguments" := VStr "-T" ]} "arguments"
  = Return (VStr "-d out")
  ∧ BaseProfile.__getattr__ PybotProfile.cls
      {[ "robot_include_tags" := VStr "a"; "arguments" := VStr "-T" ]} "arguments"
    = Return (VStr "-T")
  ∧ BaseProfile.__getattr__ CustomScriptProfile.cls
      {[ "robot_runner_script" := VStr "x" ]} "runner_script"
    = Return (VStr "")
  ∧ BaseProfile.__getattr__ PybotProfile.cls ∅ "runner_script"
    = Raise AttributeError.
Proof.
  split; [|split; [|split]].
  - eapply (proj1 (getattr_resolution _ _ _)). vm_compute. reflexivity.
  - eapply (proj1 (proj2 (getattr_resolution _ _ _))); vm_compute; reflexivity.
  - eapply (proj1 (proj2 (proj2 (getattr_resolution _ _ _)))); vm_compute; reflexivity.
  - eapply (proj1 (proj2 (proj2 (proj2 (getattr_resolution _ _ _))))); vm_compute; reflexivity.
Defined.

(** * Command resolution *)

(** The variant of [pybot] is none of the names of [robot]. *)
Lemma pybot_not_robot (nt : bool) :
  (if nt then "pybot.bat" else "pybot") ≠ "robot"
  ∧ (if nt then "pybot.bat" else "pybot") ≠ (if nt then "robot.bat" else "robot").
Proof. by destruct nt. Qed.

(** Closes the conjuncts of [get_command_resolution] once the probes of a
    case are known. *)
Ltac probes_done :=
  simpl; split_and!;
  [ reflexivity
  | first [reflexivity | by rewrite decide_False]
  | first [done | by intros _]
  | repeat constructor; simpl; congruence
  | solve [repeat (first [by left | right])]
  | intros i n o Hl; destruct i as [|[|[|i]]]; simplify_eq/=; assumption
  | intros i n o Hl; destruct i as [|[|[|i]]]; simplify_eq/=;
    (split;
     [ intros Hn; first [by eexists | by edestruct pybot_not_robot; eauto]
     | intros [m Hm]; first [done | by simplify_eq] ])
  | intros status Hst Hne; simplify_eq/=; first [done | congruence] ].

(** The probes of [get_command] and its result, for every outcome of the
    probes.  [get_command] never raises.  It probes [robot] first, and its
    platform variant next when [robot] started and exited with a status
    other than 251; the probes it makes follow the order [robot], its
    platform variant, the platform variant of [pybot]; the variant of
    [pybot] is probed exactly after a probe whose spawn failed, and the
    probe after a spawn failure is that one.  No probe but the last exited
    with 251.  The result is decided by the last probe: its name when it
    exited with 251, its exit status when it exited with another status,
    and ['no pybot'] when its spawn failed, which happens for the variant
    of [pybot] only. *)
Theorem get_command_resolution (nt : bool) (call : prober) :
  let robot := if nt then "robot.bat" else "robot" in
  let pybot := if nt then "pybot.bat" else "pybot" in
  ∃ earlier name outcome,
    (PybotProfile.get_command nt call).2 = earlier ++ [(name, outcome)]
    ∧ (PybotProfile.get_command nt call).1
      = match outcome with
        | Exit status => if decide (status = 251%Z) then VStr name else VInt status
        | SpawnFails => VStr "no pybot"
        end
    ∧ (outcome = SpawnFails → name = pybot)
    ∧ Forall (λ probe, probe.2 ≠ Exit 251) earlier
    ∧ (earlier ++ [(name, outcome)]).*1
      ∈ [["robot"]; ["robot"; robot]; ["robot"; pybot]; ["robot"; robot; pybot]]
    ∧ (∀ i n o, (earlier ++ [(name, outcome)]) !! i = Some (n, o) →
                call i [n; "--version"] = o)
    ∧ (∀ i n o, (earlier ++ [(name, outcome)]) !! (S i) = Some (n, o) →
                n = pybot ↔ ∃ m, earlier !! i = Some (m, SpawnFails))
    ∧ (∀ status, call 0 ["robot"; "--version"] = Exit status → status ≠ 251%Z →
                 (earlier ++ [(name, outcome)]) !! 1
                 = Some (robot, call 1 [robot; "--version"])).
Proof.
  intros robot pybot.
  unfold PybotProfile.get_command, PybotProfile.get_command_legacy.
  fold robot pybot.
  destruct (call 0 ["robot"; "--version"]) as [r0|] eqn:E0.
  - destruct (decide (r0 = 251%Z)) as [->|N0].
    { exists [], "robot", (Exit 251). probes_done. }
    destruct (call 1 [robot; "--version"]) as [r1|] eqn:E1.
    + exists [("robot", Exit r0)], robot, (Exit r1).
      destruct (decide (r1 = 251%Z)) as [->|N1]; probes_done.
    + destruct (call 2 [pybot; "--version"]) as [r2|] eqn:E2.
      * exists [("robot", Exit r0); (robot, SpawnFails)], pybot, (Exit r2).
        destruct (decide (r2 = 251%Z)) as [->|N2]; probes_done.
      * exists [("robot", Exit r0); (robot, SpawnFails)], pybot, SpawnFails.
        probes_done.
  - destruct (call 1 [pybot; "--version"]) as [r2|] eqn:E2.
    + exists [("robot", SpawnFails)], pybot, (Exit r2).
      destruct (decide (r2 = 251%Z)) as [->|N2]; probes_done.
    + exists [("robot", SpawnFails)], pybot, SpawnFails. probes_done.
Qed.

(** C1, at the failing inputs.  On a Windows host where [robot] cannot be
    spawned and [robot.bat] would answer the version query with 251, the
    next candidate [robot.bat] is never probed and ['no pybot'] is
    returned, where the resolution as specified returns [robot.bat].  On a
    host where every candidate starts and exits with 1, the variant of
    [pybot] is never probed and the result is the exit status 1, where the
    resolution as specified returns the sentinel. *)
Lemma get_command_not_as_specified :
  PybotProfile.get_command true only_robot_bat
  = (VStr "no pybot", [("robot", SpawnFails); ("pybot.bat", SpawnFails)])
  ∧ get_command_as_specified true only_robot_bat = VStr "robot.bat"
  ∧ PybotProfile.get_command false all_exit_1
    = (VInt 1, [("robot", Exit 1); ("robot", Exit 1)])
  ∧ get_command_as_specified false all_exit_1 = VStr "no pybot".
Proof. split_and!; vm_compute; reflexivity. Qed.

(** * Validation of the argument string *)

(** C4 (as amended): for ["--unknown-flag"], when the parser reports an
    unknown option, the message is ["Unknown option(s): "] followed by
    what the parser reported; for ["--help"], when the parser signals a
    help or version query, the message is the non-empty
    ["Does not execute - help or version option given"], and
    [_validate_arguments] shows it on a red background as it does for
    every other message. *)
Theorem invalid_message_of_validation (parse_args : PybotProfile.parser) :
  (∀ reported, parse_args ["--unknown-flag"] = PybotProfile.Parsed true reported →
     PybotProfile._get_invalid_message parse_args "--unknown-flag"
     = Return (Some ("Unknown option(s): " +:+ reported)))
  ∧ (parse_args ["--help"] = PybotProfile.RaisesInformation →
     PybotProfile._get_invalid_message parse_args "--help"
     = Return (Some "Does not execute - help or version option given")
     ∧ ∀ bg fg, PybotProfile._validate_arguments parse_args bg fg "--help"
       = Return ("red", "white",
                 "Does not execute - help or version option given")).
Proof.
  split.
  - intros reported H. unfold PybotProfile._get_invalid_message.
    change (PyStr.truthy "--unknown-flag") with true. cbv iota beta. simpl negb.
    cbv iota.
    change (PybotProfile.clean_loop 0 (PyStr.split_on "`" "--unknown-flag")
              (PyStr.split_on "`" "--unknown-flag"))
      with (Some ["--unknown-flag"]).
    cbv iota beta.
    change (PyStr.split (PyStr.join " " ["--unknown-flag"])) with ["--unknown-flag"].
    by rewrite H.
  - intros H.
    assert (PybotProfile._get_invalid_message parse_args "--help"
            = Return (Some "Does not execute - help or version option given")) as E.
    { unfold PybotProfile._get_invalid_message.
      change (PyStr.truthy "--help") with true. simpl negb. cbv iota.
      change (PybotProfile.clean_loop 0 (PyStr.split_on "`" "--help")
                (PyStr.split_on "`" "--help"))
        with (Some ["--help"]).
      cbv iota beta.
      change (PyStr.split (PyStr.join " " ["--help"])) with ["--help"].
      by rewrite H. }
    split; [exact E|]. intros bg fg.
    unfold PybotProfile._validate_arguments. rewrite E. reflexivity.
Qed.

(** [invalid_message_of_validation] with the parser [usage_parse_args]. *)
Lemma invalid_message_of_validation_witness :
  PybotProfile._get_invalid_message usage_parse_args "--unknown-flag"
  = Return (Some "Unknown option(s): --unknown-flag")
  ∧ PybotProfile._get_invalid_message usage_parse_args "--help"
    = Return (Some "Does not execute - help or version option given").
Proof.
  split.
  - apply (proj1 (invalid_message_of_validation usage_parse_args) "--unknown-flag").
    vm_compute. reflexivity.
  - apply (proj2 (invalid_message_of_validation usage_parse_args)).
    vm_compute. reflexivity.
Defined.

(** C4, the claim as stated fails: when the parser signals the help
    query, ["--help"] does yield a message, which is shown as an error. *)
Lemma help_yields_a_message :
  PybotProfile._get_invalid_message help_parser "--help" ≠ Return None
  ∧ PybotProfile._get_invalid_message usage_parse_args "--help" ≠ Return None
  ∧ PybotProfile._validate_arguments help_parser "grey" "black" "--help"
    = Return ("red", "white", "Does not execute - help or version option given").
Proof. split_and!; vm_compute; (discriminate || reflexivity). Qed.

(** * Argument assembly *)

(** Membership in a list that is written out. *)
Ltac in_list := solve [repeat (first [by left | right])].

(** Absence from a list that is written out. *)
Ltac not_in_list :=
  let H := fresh in
  intros H; repeat (apply elem_of_cons in H as [H|H]; [discriminate H|]);
  by apply elem_of_nil in H.

Section assembly_facts.
Implicit Types (os : platform) (p : profile) (args : list string).

Lemma not_in_true x args : PybotProfile.not_in x args = true ↔ x ∉ args.
Proof. unfold PybotProfile.not_in. case_bool_decide; naive_solver. Qed.

Lemma not_in_app x args args' :
  PybotProfile.not_in x (args ++ args')
  = PybotProfile.not_in x args && PybotProfile.not_in x args'.
Proof.
  unfold PybotProfile.not_in.
  rewrite <- negb_orb, <- bool_decide_or. f_equal.
  apply bool_decide_ext, elem_of_app.
Qed.



(** A suite name without [%] is copied. *)
Lemma pyformat_plain s arg :
  "%"%char ∉ PyStr.chars s →
  pyformat (s +:+ "-%s") arg = Some (s +:+ "-" +:+ arg).
Proof.
  unfold pyformat. induction s as [|c s IH]; intros Hs.
  - simpl. unfold String.app at 2. simpl. by rewrite string_app_nil_r.
  - rewrite !string_app_cons. simpl in Hs. apply not_elem_of_cons in Hs as [Hc Hs].
    simpl. rewrite decide_False by done. by rewrite IH.
Qed.

(** The call changes nothing of the profile but the defined arguments. *)
Lemma get_arguments_state os p :
  ∃ v, (PybotProfile._get_arguments os p).2 = set_defined_arguments v p.
Proof.
  unfold PybotProfile._get_arguments, PybotProfile._parse_windows_command.
  destruct (IS_WINDOWS os); [destruct (popen_echo os _)|]; simpl;
    first [by eexists | exists (_defined_arguments p); by destruct p].
Qed.


Lemma get_command_args_steps os p :
  PybotProfile.get_command_args os p =
  let tokens := (PybotProfile._get_arguments os p).1 in
  '(log_name_format, args) ←
    PybotProfile.args_suite_name p (PybotProfile.args_output_directory os p tokens);
  args ← PybotProfile.args_saving_logs p log_name_format args;
  Some (PybotProfile.args_exclude p
          (PybotProfile.args_include p (PybotProfile.args_timestamp p args)),
        (PybotProfile._get_arguments os p).2).
Proof.
  unfold PybotProfile.get_command_args.
  destruct (get_arguments_state os p) as [v Hv].
  destruct (PybotProfile._get_arguments os p) as [tokens q]. simpl in *. by subst q.
Qed.


Lemma tags_loop_spec pieces tags :
  PybotProfile.tags_loop pieces tags
  = tags ++ filter (λ t, t ≠ "") (PybotProfile.tag_of <$> pieces).
Proof.
  revert tags. induction pieces as [|piece pieces IH]; intros tags; simpl.
  - by rewrite app_nil_r.
  - rewrite filter_cons.
    destruct (decide (PybotProfile.tag_of piece ≠ "")) as [H|H].
    + destruct (PybotProfile.tag_of piece) as [|c t]; [done|]. simpl.
      by rewrite IH, <- app_assoc.
    + apply dec_stable in H. rewrite H. simpl. apply IH.
Qed.

Lemma append_tags_spec prefix tags args :
  PybotProfile.append_tags prefix tags args = args ++ (String.app prefix <$> tags).
Proof.
  revert args. induction tags as [|t tags IH]; intros args; simpl.
  - by rewrite app_nil_r.
  - by rewrite IH, <- app_assoc.
Qed.

(** The tag tokens of a tag setting: a token for each piece between
    commas that is not empty once it is trimmed and rid of its spaces. *)
Lemma tag_tokens_spec prefix (apply : bool) tag_string args :
  (if apply && PyStr.truthy tag_string
   then PybotProfile.append_tags prefix
          (PybotProfile._get_tags_from_string tag_string) args
   else args)
  = args ++ (if apply
             then String.app prefix <$>
                    filter (λ t, t ≠ "")
                      (PybotProfile.tag_of <$> PyStr.split_on "," tag_string)
             else []).
Proof.
  destruct apply; simpl; [|by rewrite app_nil_r].
  destruct tag_string as [|c s]; simpl PyStr.truthy; cbv iota.
  - by rewrite app_nil_r.
  - rewrite append_tags_spec. unfold PybotProfile._get_tags_from_string.
    by rewrite tags_loop_spec.
Qed.
End assembly_facts.

(** The steps that come after the output directory append tokens only,
    and whatever holds of the tokens they can append holds of those. *)
Section appended_tokens.
Variable Q : string → Prop.


End appended_tokens.

Section assembly_results.
Implicit Types (os : platform) (p : profile) (args : list string).



Lemma args_suite_name_format p args log_name_format args' :
  PybotProfile.args_suite_name p args = Some (log_name_format, args') →
  log_name_format
  = if are_log_names_with_suite_name p then suite_name p +:+ "-%s" else "%s".
Proof.
  unfold PybotProfile.args_suite_name.
  destruct (are_log_names_with_suite_name p); [|by intros [= <- _]].
  intros H. apply bind_Some in H as (a1 & _ & H).
  apply bind_Some in H as (a2 & _ & H).
  by apply bind_Some in H as (a3 & _ & [= <- _]).
Qed.


End assembly_results.




Lemma set_apply_tags_arguments (os : platform) (p : profile) (inc exc : bool) :
  (PybotProfile._get_arguments os (set_apply_tags inc exc p)).1
  = (PybotProfile._get_arguments os p).1.
Proof.
  unfold PybotProfile._get_arguments, PybotProfile._parse_windows_command.
  destruct (IS_WINDOWS os); [|done]. simpl.
  by destruct (popen_echo os (arguments p)).
Qed.

(** C3 (as amended): [get_command_args] returns the arguments it returns
    without tag filters, followed by the include tokens and then by the
    exclude tokens.  With the filter applied, each piece of the tag setting
    between commas, trimmed of its whitespace and rid of its remaining
    space characters, gives one token [--include=<tag>], respectively
    [--exclude=<tag>], unless it is empty then; the tokens keep the order
    of the pieces.  For [include_tags="a, b ,c"] they are exactly
    [--include=a], [--include=b], [--include=c], none of which holds
    whitespace. *)
Theorem tag_filter_tokens (os : platform) (p : profile) :
  let tokens_of prefix tag_string :=
    String.app prefix <$>
      filter (λ tag, tag ≠ "")
        ((λ piece, PyStr.replace " " "" (PyStr.strip piece)) <$>
           PyStr.split_on "," tag_string) in
  let included :=
    if apply_include_tags p then tokens_of "--include=" (include_tags p) else [] in
  let excluded :=
    if apply_exclude_tags p then tokens_of "--exclude=" (exclude_tags p) else [] in
  fst <$> PybotProfile.get_command_args os p
  = (λ without, without.1 ++ included ++ excluded) <$>
      PybotProfile.get_command_args os (set_apply_tags false false p)
  ∧ tokens_of "--include=" "a, b ,c" = ["--include=a"; "--include=b"; "--include=c"]
  ∧ tokens_of "--exclude=" "a, b ,c" = ["--exclude=a"; "--exclude=b"; "--exclude=c"]
  ∧ Forall (λ token, Forall (λ c, PyStr.is_space c = false) (PyStr.chars token))
      (tokens_of "--include=" "a, b ,c").
Proof.
  intros tokens_of included excluded. split_and!.
  - rewrite !get_command_args_steps. cbv zeta.
    rewrite set_apply_tags_arguments.
    change (PybotProfile.args_output_directory os (set_apply_tags false false p))
      with (PybotProfile.args_output_directory os p).
    change (PybotProfile.args_suite_name (set_apply_tags false false p))
      with (PybotProfile.args_suite_name p).
    destruct (PybotProfile.args_suite_name p _) as [[log_name_format a1]|]; [|done].
    simpl.
    change (PybotProfile.args_saving_logs (set_apply_tags false false p))
      with (PybotProfile.args_saving_logs p).
    destruct (PybotProfile.args_saving_logs p log_name_format a1) as [a2|]; [|done].
    simpl. f_equal.
    unfold PybotProfile.args_exclude, PybotProfile.args_include.
    rewrite !tag_tokens_spec. simpl. rewrite !app_nil_r.
    by rewrite <- app_assoc.
  - vm_compute. reflexivity.
  - vm_compute. reflexivity.
  - vm_compute. repeat constructor.
Qed.

(** C3, the claim as stated fails: the exclude tag [smoke test], trimmed
    of its whitespace, keeps its inner space, yet the token made of it is
    [--exclude=smoketest]; and the second tag, empty once trimmed, gives no
    token at all. *)
Lemma exclude_tag_not_only_trimmed :
  PyStr.strip <$> PyStr.split_on "," "smoke test, ,b" = ["smoke test"; ""; "b"]
  ∧ fst <$> PybotProfile.get_command_args (posix "/home/ride" "")
              (tags_profile false "" true "smoke test, ,b")
    = Some ["--exclude=smoketest"; "--exclude=b"]
  ∧ ("--exclude=smoke test" ∉ ["--exclude=smoketest"; "--exclude=b"])
  ∧ ("--exclude=" ∉ ["--exclude=smoketest"; "--exclude=b"]).
Proof.
  split_and!; try (vm_compute; reflexivity); not_in_list.
Qed.

Section suite_name_flags.
Implicit Types (os : platform) (p : profile) (args : list string).

Lemma not_in_pair long short args :
  PybotProfile.not_in long args && PybotProfile.not_in short args
  = negb (bool_decide (long ∈ args ∨ short ∈ args)).
Proof. unfold PybotProfile.not_in. by rewrite bool_decide_or, negb_orb. Qed.

(** A flag other than [-d] is not among what the step of the output
    directory appends, when the absolute path does not begin with [-]. *)
Lemma flag_not_in_output_directory (guard : bool) flag path :
  PyStr.startswith "-" path = false →
  PyStr.startswith "-" flag = true → flag ≠ "-d" →
  PybotProfile.not_in flag (if guard then ["-d"; path] else []) = true.
Proof.
  intros Hpath Hflag Hd. apply not_in_true. destruct guard; [|by intros ?%elem_of_nil].
  intros H. apply elem_of_cons in H as [H|H]; [done|].
  apply elem_of_cons in H as [->|H]; [congruence|]. by apply elem_of_nil in H.
Qed.

Lemma flag_not_in_pair (guard : bool) flag short file :
  flag ≠ short → flag ≠ file →
  PybotProfile.not_in flag (if guard then [short; file] else []) = true.
Proof.
  intros Hshort Hfile. apply not_in_true. destruct guard; [|by intros ?%elem_of_nil].
  intros H. apply elem_of_cons in H as [H|H]; [done|].
  apply elem_of_cons in H as [->|H]; [done|]. by apply elem_of_nil in H.
Qed.

End suite_name_flags.




(** * Further properties of the argument assembly *)

(** A log name made of a suite name is none of the flags. *)
Lemma named_not_flag (s file flag : string) :
  PyStr.contains file flag = false → flag ≠ s +:+ "-" +:+ file.
Proof.
  intros Hf ->.
  assert (s +:+ "-" +:+ file = (s +:+ "-") +:+ file +:+ "") as E
    by by rewrite string_app_nil_r, string_app_assoc.
  by rewrite E, contains_app in Hf.
Qed.

(** Closes the side conditions of the guards: a flag differs from the
    tokens appended before it is looked for. *)
Ltac flag_differs :=
  first [ done | by apply named_not_flag | by intros -> ].

(** The guard of a step, read on the tokens of the argument string: what
    the earlier steps appended holds neither form of the flag. *)
Lemma guard_on_tokens (long short : string) (tokens added : list string) :
  PybotProfile.not_in long added = true → PybotProfile.not_in short added = true →
  PybotProfile.not_in long (tokens ++ added) && PybotProfile.not_in short (tokens ++ added)
  = negb (bool_decide (long ∈ tokens ∨ short ∈ tokens)).
Proof.
  intros Hl Hs. by rewrite !not_in_app, Hl, Hs, !andb_true_r, not_in_pair.
Qed.

Lemma extend_unless_tokens (long short fmt file v : string)
      (tokens added : list string) :
  pyformat fmt file = Some v →
  PybotProfile.not_in long added = true → PybotProfile.not_in short added = true →
  PybotProfile.extend_unless long short fmt file (tokens ++ added)
  = Some (tokens ++ added
            ++ if negb (bool_decide (long ∈ tokens ∨ short ∈ tokens))
               then [short; v] else []).
Proof.
  intros Hv Hl Hs. unfold PybotProfile.extend_unless.
  rewrite guard_on_tokens by done. destruct (negb _).
  - rewrite Hv. simpl. by rewrite <- app_assoc.
  - by rewrite app_nil_r.
Qed.

(** X1: when the suite name, if it is used, holds no [%] and the absolute
    path of the output directory does not begin with [-],
    [get_command_args] returns the tokens of the argument string followed,
    in this order, by the output directory, log, report, output, debug
    file and time stamp arguments, each one exactly when its setting asks
    for it and neither form of its flag is among the tokens, and then by
    the include and the exclude tokens.  The log names take the suite name
    exactly when the setting says so. *)
Theorem get_command_args_normal_form (os : platform) (p : profile)
  (Hs : are_log_names_with_suite_name p = true →
        "%"%char ∉ PyStr.chars (suite_name p))
  (Habs : PyStr.startswith "-" (abspath os (output_directory p)) = false) :
  let tokens := (PybotProfile._get_arguments os p).1 in
  let absent long short := negb (bool_decide (long ∈ tokens ∨ short ∈ tokens)) in
  let named file :=
    if are_log_names_with_suite_name p then suite_name p +:+ "-" +:+ file else file in
  let tags prefix tag_string :=
    String.app prefix <$>
      filter (λ tag, tag ≠ "")
        ((λ piece, PyStr.replace " " "" (PyStr.strip piece)) <$>
           PyStr.split_on "," tag_string) in
  fst <$> PybotProfile.get_command_args os p
  = Some (tokens
      ++ (if PyStr.truthy (output_directory p) && absent "--outputdir" "-d"
          then ["-d"; abspath os (output_directory p)] else [])
      ++ (if are_log_names_with_suite_name p && absent "--log" "-l"
          then ["-l"; named "Log.html"] else [])
      ++ (if are_log_names_with_suite_name p && absent "--report" "-r"
          then ["-r"; named "Report.html"] else [])
      ++ (if are_log_names_with_suite_name p && absent "--output" "-o"
          then ["-o"; named "Output.xml"] else [])
      ++ (if are_saving_logs p && absent "--debugfile" "-b"
          then ["-b"; named "Message.log"] else [])
      ++ (if are_log_names_with_timestamp p && absent "--timestampoutputs" "-T"
          then ["-T"] else [])
      ++ (if apply_include_tags p then tags "--include=" (include_tags p) else [])
      ++ (if apply_exclude_tags p then tags "--exclude=" (exclude_tags p) else [])).
Proof.
  intros tokens absent named tags.
  rewrite get_command_args_steps. cbv zeta. fold tokens.
  unfold PybotProfile.args_output_directory.
  set (path := abspath os (output_directory p)) in *.
  set (guard := PyStr.truthy (output_directory p) && _ && _).
  replace (if guard then tokens ++ ["-d"; path] else tokens)
    with (tokens ++ if guard then ["-d"; path] else [])
    by (destruct guard; by rewrite ?app_nil_r).
  assert (guard = PyStr.truthy (output_directory p) && absent "--outputdir" "-d")
    as <-.
  { unfold guard, absent. by rewrite <- andb_assoc, not_in_pair. }
  set (D := if guard then ["-d"; path] else []).
  assert (∀ flag, PyStr.startswith "-" flag = true → flag ≠ "-d" →
            PybotProfile.not_in flag D = true) as HD.
  { intros flag. by apply flag_not_in_output_directory. }
  (* the format of the log names and what it makes of a file name *)
  assert (∃ fmt, (∀ args, PybotProfile.args_suite_name p args
                   = (if are_log_names_with_suite_name p
                      then args ← PybotProfile.extend_unless "--log" "-l" fmt "Log.html" args;
                           args ← PybotProfile.extend_unless "--report" "-r" fmt "Report.html" args;
                           args ← PybotProfile.extend_unless "--output" "-o" fmt "Output.xml" args;
                           Some (fmt, args)
                      else Some (fmt, args)))
                 ∧ ∀ file, pyformat fmt file = Some (named file)) as (fmt & Hsuite & Hfmt).
  { unfold PybotProfile.args_suite_name, named.
    destruct (are_log_names_with_suite_name p).
    - exists (suite_name p +:+ "-%s"). split; [done|]. intros file.
      by apply pyformat_plain, Hs.
    - exists "%s". split; [done|]. intros file. unfold pyformat. simpl.
      by rewrite string_app_nil_r. }
  assert (∀ file flag, PyStr.contains file flag = false → flag ≠ named file) as Hnamed.
  { intros file flag Hf. unfold named.
    destruct (are_log_names_with_suite_name p); [by apply named_not_flag|].
    intros ->. assert (PyStr.contains file file = true) as E; [|congruence].
    rewrite <- (string_app_nil_r file) at 2. apply (contains_app "" file ""). }
  rewrite Hsuite. clear Hsuite.
  set (L := if are_log_names_with_suite_name p && absent "--log" "-l"
            then ["-l"; named "Log.html"] else []).
  set (R := if are_log_names_with_suite_name p && absent "--report" "-r"
            then ["-r"; named "Report.html"] else []).
  set (O := if are_log_names_with_suite_name p && absent "--output" "-o"
            then ["-o"; named "Output.xml"] else []).
  assert ((if are_log_names_with_suite_name p
           then args ← PybotProfile.extend_unless "--log" "-l" fmt "Log.html" (tokens ++ D);
                args ← PybotProfile.extend_unless "--report" "-r" fmt "Report.html" args;
                args ← PybotProfile.extend_unless "--output" "-o" fmt "Output.xml" args;
                Some (fmt, args)
           else Some (fmt, tokens ++ D))
          = Some (fmt, tokens ++ D ++ L ++ R ++ O)) as ->.
  { unfold L, R, O. destruct (are_log_names_with_suite_name p); simpl andb; cbv iota.
    2:{ by rewrite !app_nil_r. }
    rewrite (extend_unless_tokens _ _ _ _ _ _ _ (Hfmt _)) by (apply HD; done).
    simpl mbind. fold (absent "--log" "-l").
    rewrite (extend_unless_tokens _ _ _ _ _ _ _ (Hfmt _))
      by (rewrite not_in_app, HD, flag_not_in_pair;
          first [done | apply Hnamed; by vm_compute]).
    simpl mbind. fold (absent "--report" "-r").
    rewrite <- app_assoc.
    rewrite (extend_unless_tokens _ _ _ _ _ _ _ (Hfmt _))
      by (rewrite !not_in_app, HD, !flag_not_in_pair;
          first [done | apply Hnamed; by vm_compute]).
    simpl mbind. by rewrite <- !app_assoc. }
  simpl mbind.
  set (B := if are_saving_logs p && absent "--debugfile" "-b"
            then ["-b"; named "Message.log"] else []).
  assert (PybotProfile.args_saving_logs p fmt (tokens ++ D ++ L ++ R ++ O)
          = Some (tokens ++ D ++ L ++ R ++ O ++ B)) as ->.
  { unfold PybotProfile.args_saving_logs, B.
    destruct (are_saving_logs p); simpl andb; cbv iota.
    2:{ by rewrite !app_nil_r. }
    rewrite (extend_unless_tokens _ _ _ _ _ _ _ (Hfmt _))
      by (unfold L, R, O; rewrite !not_in_app, HD, !flag_not_in_pair;
          first [done | apply Hnamed; by vm_compute]).
    by rewrite <- !app_assoc. }
  simpl. f_equal.
  unfold PybotProfile.args_exclude, PybotProfile.args_include.
  rewrite !tag_tokens_spec. fold (tags "--include=" (include_tags p)).
  fold (tags "--exclude=" (exclude_tags p)).
  unfold PybotProfile.args_timestamp. rewrite <- andb_assoc.
  rewrite guard_on_tokens
    by (unfold L, R, O, B; rewrite !not_in_app, HD, !flag_not_in_pair;
        first [done | apply Hnamed; by vm_compute]).
  fold (absent "--timestampoutputs" "-T").
  destruct (_ && absent "--timestampoutputs" "-T"); by rewrite <- ?app_assoc.
Qed.

Lemma get_command_args_normal_form_witness :
  fst <$> PybotProfile.get_command_args (posix "/home/ride" "")
            (full_profile "--name x -b dbg.txt" "out/logs" "Nightly")
  = Some ["--name"; "x"; "-b"; "dbg.txt"; "-d"; "/home/ride/out/logs";
          "-l"; "Nightly-Log.html"; "-r"; "Nightly-Report.html";
          "-o"; "Nightly-Output.xml"; "-T";
          "--include=smoke"; "--include=fast"; "--exclude=slow"].
Proof.
  apply (get_command_args_normal_form (posix "/home/ride" "")
           (full_profile "--name x -b dbg.txt" "out/logs" "Nightly")).
  - intros _. vm_compute. not_in_list.
  - vm_compute. reflexivity.
Defined.

Lemma get_arguments_again (os : platform) (p : profile) :
  PybotProfile._get_arguments os (PybotProfile._get_arguments os p).2
  = PybotProfile._get_arguments os p.
Proof.
  unfold PybotProfile._get_arguments, PybotProfile._parse_windows_command.
  destruct (IS_WINDOWS os) eqn:Hw; simpl; [|done].
  destruct (popen_echo os (arguments p)) eqn:He; simpl; by rewrite ?He.
Qed.

(** X2: a call of [get_command_args] can be repeated: on the profile as
    the call left it, the call returns the same list and leaves the same
    profile. *)
Theorem get_command_args_repeatable (os : platform) (p p' : profile)
        (args : list string) :
  PybotProfile.get_command_args os p = Some (args, p') →
  PybotProfile.get_command_args os p' = Some (args, p').
Proof.
  intros H. rewrite get_command_args_steps in H. cbv zeta in H.
  assert (p' = (PybotProfile._get_arguments os p).2) as ->.
  { apply bind_Some in H as ([fmt a1] & _ & H).
    by apply bind_Some in H as (a2 & _ & [= _ <-]). }
  rewrite get_command_args_steps. cbv zeta. rewrite get_arguments_again.
  destruct (get_arguments_state os p) as [v Hv].
  rewrite Hv in *. exact H.
Qed.

Lemma get_command_args_repeatable_witness :
  let p' := set_defined_arguments "--name   x" (full_profile "  --name   x" "" "Nightly") in
  PybotProfile.get_command_args echo_host p'
  = Some (["--name"; "x"; "-l"; "Nightly-Log.html"; "-r"; "Nightly-Report.html";
           "-o"; "Nightly-Output.xml"; "-b"; "Nightly-Message.log"; "-T";
           "--include=smoke"; "--include=fast"; "--exclude=slow"], p').
Proof.
  apply (get_command_args_repeatable echo_host (full_profile "  --name   x" "" "Nightly")).
  vm_compute. reflexivity.
Defined.

(** * Further properties of the extra settings *)

(** X10: on a platform that splits [Console.txt] into [Console] and
    [.txt], [get_settings] is empty when the logs are not saved, and else
    the key [console_log_name] with the name [Console.txt] whose base
    name is followed by [-] and the time stamp, and which is preceded by
    the suite name and [-], as the two settings ask. *)
Theorem get_settings_console_log_name (os : platform) (p : profile) :
  splitext os "Console.txt" = ("Console", ".txt") →
  PybotProfile.get_settings os p
  = if are_saving_logs p
    then ["console_log_name";
          (if are_log_names_with_suite_name p then suite_name p +:+ "-" else "")
          +:+ "Console"
          +:+ (if are_log_names_with_timestamp p then "-" +:+ format_time_now os else "")
          +:+ ".txt"]
    else [].
Proof.
  intros Hsplit. unfold PybotProfile.get_settings. rewrite Hsplit.
  destruct (are_saving_logs p); [|done].
  destruct (are_log_names_with_timestamp p), (are_log_names_with_suite_name p);
    cbv iota beta zeta; rewrite ?string_app_assoc; reflexivity.
Qed.

Lemma get_settings_console_log_name_witness :
  PybotProfile.get_settings (posix "/home/ride" "20240101-101010")
    (full_profile "" "" "Nightly")
  = ["console_log_name"; "Nightly-Console-20240101-101010.txt"].
Proof.
  apply (get_settings_console_log_name (posix "/home/ride" "20240101-101010")
           (full_profile "" "" "Nightly")).
  vm_compute. reflexivity.
Defined.

(** * The directory of a custom script *)

Lemma space_not_sep (c : ascii) : PyStr.is_space c = true → c ≠ posixpath.sep.
Proof. by intros H ->. Qed.

Lemma upto_last_sep_rstrip (s : string) :
  posixpath.upto_last_sep (PyStr.rstrip s) = posixpath.upto_last_sep s.
Proof.
  induction s as [|c s IH]; [done|]. simpl.
  destruct (PyStr.rstrip s) as [|a r] eqn:E.
  - rewrite <- IH. simpl. destruct (PyStr.is_space c) eqn:Hc; [|done].
    simpl. by rewrite decide_False by by apply space_not_sep.
  - simpl in *. by rewrite IH.
Qed.

Lemma lstrip_id (s : string) :
  PyStr.starts_with_space s = false → PyStr.lstrip s = s.
Proof. destruct s as [|c s]; [done|]. simpl. by intros ->. Qed.

Lemma rstrip_keeps_start (s : string) :
  PyStr.starts_with_space s = false →
  PyStr.starts_with_space (PyStr.rstrip s) = false.
Proof.
  destruct s as [|c s]; [done|]. simpl. intros Hc.
  destruct (PyStr.rstrip s); [by rewrite Hc|done].
Qed.

(** X11: on a POSIX host, when the script setting does not begin with
    whitespace, [get_cwd] is the directory of the command that
    [get_command] returns; whitespace after the script does no harm. *)
Theorem get_cwd_of_launched_script (cwd now : string) (p : profile) :
  PyStr.starts_with_space (runner_script p) = false →
  CustomScriptProfile.get_cwd (posix cwd now) p
  = dirname (posix cwd now) (CustomScriptProfile.get_command p).
Proof.
  intros H. unfold CustomScriptProfile.get_cwd, CustomScriptProfile.get_command.
  simpl. unfold PyStr.strip. rewrite lstrip_id by by apply rstrip_keeps_start.
  unfold posixpath.dirname. by rewrite upto_last_sep_rstrip.
Qed.

Lemma get_cwd_of_launched_script_witness :
  CustomScriptProfile.get_cwd (posix "/home/ride" "")
    (set_runner_script "/opt/tools/run.sh   " default_profile)
  = "/opt/tools"
  ∧ CustomScriptProfile.get_command
      (set_runner_script "/opt/tools/run.sh   " default_profile)
    = "/opt/tools/run.sh".
Proof.
  split; [|vm_compute; reflexivity].
  rewrite (get_cwd_of_launched_script "/home/ride" ""
             (set_runner_script "/opt/tools/run.sh   " default_profile));
    vm_compute; reflexivity.
Defined.

(** * Further facts on the string primitives *)

Section more_string_facts.
Implicit Types (s t : string) (c : ascii).

Lemma chars_app s t : PyStr.chars (s +:+ t) = PyStr.chars s ++ PyStr.chars t.
Proof. induction s as [|c s IH]; [done|]. rewrite string_app_cons. simpl. by rewrite IH. Qed.

Lemma chars_inj s t : PyStr.chars s = PyStr.chars t → s = t.
Proof.
  revert t. induction s as [|c s IH]; intros [|d t]; simpl; try done.
  intros [= -> H]. by rewrite (IH t).
Qed.

Lemma rstrip_id s : PyStr.ends_with_space s = false → PyStr.rstrip s = s.
Proof.
  induction s as [|c s IH]; [done|]. intros H. simpl.
  destruct s as [|a t].
  - simpl. unfold PyStr.ends_with_space in H. simpl in H. by rewrite H.
  - rewrite IH; done.
Qed.

(** A string that holds no first character of [old] holds no [old]. *)
Lemma replace_from_app o old new s t :
  o ∉ PyStr.chars s →
  PyStr.replace_from (String o old) new 0 (s +:+ t)
  = s +:+ PyStr.replace_from (String o old) new 0 t.
Proof.
  induction s as [|c s IH]; [done|]. simpl. intros [Hc Hs]%not_elem_of_cons.
  rewrite string_app_cons. simpl. rewrite decide_False by done.
  by rewrite IH.
Qed.

Lemma replace_absent o old new s :
  o ∉ PyStr.chars s → PyStr.replace (String o old) new s = s.
Proof.
  intros H. unfold PyStr.replace.
  rewrite <- (string_app_nil_r s) at 1. rewrite replace_from_app by done.
  simpl. apply string_app_nil_r.
Qed.

(** [s.replace(' ', '')] drops the spaces and nothing else. *)
Lemma chars_replace_space s :
  PyStr.chars (PyStr.replace " " "" s)
  = filter (λ c, c ≠ " "%char) (PyStr.chars s).
Proof.
  unfold PyStr.replace. induction s as [|c s IH]; [done|]. simpl.
  rewrite filter_cons. destruct (decide (" "%char = c)) as [<-|Hc].
  - rewrite decide_False by naive_solver. exact IH.
  - rewrite decide_True by naive_solver. simpl. by rewrite IH.
Qed.

Lemma last_filter (P : ascii → Prop) `{∀ c, Decision (P c)} (l : list ascii) c :
  last l = Some c → P c → last (filter P l) = Some c.
Proof.
  intros Hl Hc. induction l as [|a l IH]; [done|].
  rewrite filter_cons. destruct l as [|b l].
  - simplify_eq/=. by rewrite decide_True.
  - specialize (IH Hl). destruct (decide (P a)); [|done].
    destruct (filter P (b :: l)); done.
Qed.

Lemma split_on_no_sep sep s :
  Forall (λ w, sep ∉ PyStr.chars w) (PyStr.split_on sep s).
Proof.
  induction s as [|c s IH]; simpl.
  - repeat constructor. apply not_elem_of_nil.
  - destruct (decide (c = sep)) as [->|Hc].
    + constructor; [apply not_elem_of_nil|done].
    + destruct (PyStr.split_on sep s) as [|w ws].
      * repeat constructor. simpl. apply not_elem_of_cons. split; [done|].
        apply not_elem_of_nil.
      * apply Forall_cons in IH as [Hw Hws]. constructor; [|done].
        simpl. apply not_elem_of_cons. by split.
Qed.

Lemma split_on_absent sep s :
  sep ∉ PyStr.chars s → PyStr.split_on sep s = [s].
Proof.
  induction s as [|c s IH]; [done|]. simpl. intros [Hc Hs]%not_elem_of_cons.
  rewrite decide_False by done. by rewrite IH.
Qed.

Lemma split_on_app sep s t :
  sep ∉ PyStr.chars s →
  PyStr.split_on sep (s +:+ String sep t) = s :: PyStr.split_on sep t.
Proof.
  induction s as [|c s IH]; intros Hs.
  - change ("" +:+ String sep t) with (String sep t). simpl.
    by rewrite decide_True.
  - simpl in Hs. apply not_elem_of_cons in Hs as [Hc Hs].
    rewrite string_app_cons. simpl.
    rewrite decide_False by done. by rewrite IH.
Qed.

Lemma split_on_nonempty sep s : PyStr.split_on sep s ≠ [].
Proof.
  destruct s as [|c s]; [done|]. simpl.
  destruct (decide (c = sep)); [done|]. by destruct (PyStr.split_on sep s).
Qed.

(** The last piece of a string that ends with the separator is empty. *)
Lemma split_on_trailing sep s :
  PyStr.split_on sep (s +:+ String sep "") = PyStr.split_on sep s ++ [""].
Proof.
  induction s as [|c s IH].
  - change ("" +:+ String sep "") with (String sep ""). simpl.
    by rewrite decide_True.
  - rewrite string_app_cons. simpl. destruct (decide (c = sep)).
    + by rewrite IH.
    + rewrite IH. pose proof (split_on_nonempty sep s).
      by destruct (PyStr.split_on sep s).
Qed.

Lemma split_all_space tok s :
  PyStr.all_space s = true →
  PyStr.split_ws_from tok s = if PyStr.truthy tok then [tok] else [].
Proof.
  revert tok. induction s as [|c s IH]; intros tok; [done|].
  unfold PyStr.all_space. simpl. intros [Hc Hs]%andb_true_iff.
  rewrite Hc. rewrite (IH "") by done. by destruct (PyStr.truthy tok).
Qed.

Lemma split_rstrip tok s :
  PyStr.split_ws_from tok (PyStr.rstrip s) = PyStr.split_ws_from tok s.
Proof.
  revert tok. induction s as [|c s IH]; intros tok; [done|]. simpl.
  destruct (PyStr.rstrip s) as [|a r] eqn:E.
  - destruct (PyStr.is_space c) eqn:Hc; simpl.
    + rewrite <- (IH ""). simpl. by destruct (PyStr.truthy tok).
    + rewrite Hc. by rewrite <- IH.
  - change (PyStr.split_ws_from tok (String c (String a r)))
      with (if PyStr.is_space c
            then (if PyStr.truthy tok
                  then tok :: PyStr.split_ws_from "" (String a r)
                  else PyStr.split_ws_from "" (String a r))
            else PyStr.split_ws_from (tok +:+ String c "") (String a r)).
    by rewrite !IH.
Qed.

Lemma split_lstrip s :
  PyStr.split (PyStr.lstrip s) = PyStr.split s.
Proof.
  unfold PyStr.split. induction s as [|c s IH]; [done|]. simpl.
  destruct (PyStr.is_space c) eqn:Hc; [done|]. simpl. by rewrite Hc.
Qed.

(** Trimming does not change the tokens. *)
Lemma split_strip s : PyStr.split (PyStr.strip s) = PyStr.split s.
Proof. unfold PyStr.strip. rewrite split_lstrip. apply split_rstrip. Qed.
End more_string_facts.

(** * The tags of a tag setting *)

Section tag_facts.
Implicit Types (s piece tag : string).

Lemma strip_chars piece c :
  c ∈ PyStr.chars (PyStr.strip piece) → c ∈ PyStr.chars piece.
Proof.
  destruct (strip_spec piece) as ((l & r & E & _) & _).
  intros H. rewrite E, !chars_app. set_unfold. tauto.
Qed.

(** What is true of a tag that [tag_of] leaves. *)
Lemma tag_of_clean piece :
  (" "%char ∉ PyStr.chars (PybotProfile.tag_of piece))
  ∧ (","%char ∉ PyStr.chars piece →
     ","%char ∉ PyStr.chars (PybotProfile.tag_of piece))
  ∧ PyStr.starts_with_space (PybotProfile.tag_of piece) = false
  ∧ PyStr.ends_with_space (PybotProfile.tag_of piece) = false.
Proof.
  unfold PybotProfile.tag_of.
  destruct (strip_spec piece) as (_ & Hb & He).
  set (x := PyStr.strip piece) in *.
  assert (PyStr.chars (PyStr.replace " " "" x)
          = filter (λ c, c ≠ " "%char) (PyStr.chars x)) as E
    by apply chars_replace_space.
  split_and!.
  - rewrite E. by intros [H _]%list_elem_of_filter.
  - intros Hp. rewrite E. intros [_ H]%list_elem_of_filter.
    by apply Hp, strip_chars.
  - destruct x as [|c x']; [done|]. simpl in Hb.
    assert (c ≠ " "%char) as Hc by by intros ->.
    simpl in E. rewrite filter_cons, decide_True in E by done.
    destruct (PyStr.replace " " "" (String c x')) as [|d t]; [done|].
    simpl in E. by injection E as -> _.
  - unfold PyStr.ends_with_space in *. rewrite E.
    destruct (last (PyStr.chars x)) as [c|] eqn:Hl.
    + rewrite (last_filter _ _ c); [done|done|]. by intros ->.
    + apply last_None in Hl. by rewrite Hl.
Qed.

(** A tag that is as [tag_of] leaves tags is left as it is. *)
Lemma tag_of_id tag :
  " "%char ∉ PyStr.chars tag →
  PyStr.starts_with_space tag = false → PyStr.ends_with_space tag = false →
  PybotProfile.tag_of tag = tag.
Proof.
  intros Hs Hb He. unfold PybotProfile.tag_of, PyStr.strip.
  rewrite rstrip_id, lstrip_id by done. by apply replace_absent.
Qed.

Lemma split_on_join (tags : list string) :
  tags ≠ [] → Forall (λ tag, ","%char ∉ PyStr.chars tag) tags →
  PyStr.split_on "," (PyStr.join "," tags) = tags.
Proof.
  induction tags as [|tag tags IH]; [done|]. intros _ [Htag Htags]%Forall_cons.
  destruct tags as [|tag' tags].
  - simpl. by apply split_on_absent.
  - change (PyStr.join "," (tag :: tag' :: tags))
      with (tag +:+ String "," (PyStr.join "," (tag' :: tags))).
    rewrite split_on_app by done. by rewrite IH.
Qed.
End tag_facts.

Lemma tag_is_clean (tag_string tag : string) :
  tag ∈ PybotProfile._get_tags_from_string tag_string →
  tag ≠ ""
  ∧ (" "%char ∉ PyStr.chars tag) ∧ (","%char ∉ PyStr.chars tag)
  ∧ PyStr.starts_with_space tag = false
  ∧ PyStr.ends_with_space tag = false.
Proof.
  unfold PybotProfile._get_tags_from_string. rewrite tags_loop_spec. simpl.
  intros [Hne Hin]%list_elem_of_filter.
  apply list_elem_of_fmap in Hin as (piece & -> & Hpiece).
  pose proof (split_on_no_sep "," tag_string) as Hsep.
  rewrite Forall_forall in Hsep.
  destruct (tag_of_clean piece) as (H1 & H2 & H3 & H4).
  split_and!; try done. by apply H2, Hsep.
Qed.

(** X4: no tag that [_get_tags_from_string] returns is empty, holds a
    space or a comma, or begins or ends with whitespace. *)
Theorem tags_are_clean (tag_string : string) :
  Forall (λ tag, tag ≠ ""
                 ∧ (" "%char ∉ PyStr.chars tag) ∧ (","%char ∉ PyStr.chars tag)
                 ∧ PyStr.starts_with_space tag = false
                 ∧ PyStr.ends_with_space tag = false)
    (PybotProfile._get_tags_from_string tag_string).
Proof.
  apply Forall_forall. intros tag Hin.
  by apply (tag_is_clean tag_string).
Qed.

(** X5: the tags that [_get_tags_from_string] returns, joined by commas,
    are read back as the same tags. *)
Theorem tags_round_trip (tag_string : string) :
  let tags := PybotProfile._get_tags_from_string tag_string in
  PybotProfile._get_tags_from_string (PyStr.join "," tags) = tags.
Proof.
  intros tags.
  assert (Forall (λ tag, tag ≠ ""
                         ∧ (" "%char ∉ PyStr.chars tag) ∧ (","%char ∉ PyStr.chars tag)
                         ∧ PyStr.starts_with_space tag = false
                         ∧ PyStr.ends_with_space tag = false) tags) as Hclean.
  { apply Forall_forall. intros tag Hin. by apply (tag_is_clean tag_string). }
  destruct (decide (tags = [])) as [->|Hne]; [done|].
  unfold PybotProfile._get_tags_from_string at 1.
  rewrite tags_loop_spec, split_on_join; [|done|]; simpl.
  - induction Hclean as [|tag rest (H0 & H1 & H2 & H3 & H4) _ IH]; [done|].
    rewrite fmap_cons, filter_cons, tag_of_id, decide_True by done.
    f_equal. destruct rest; [done|]. by apply IH.
  - eapply Forall_impl; [exact Hclean|]. by intros tag (_ & _ & H & _).
Qed.

(** * Further properties of the validation *)

Section validation_facts.
Implicit Types (parse_args : PybotProfile.parser) (args : string).

(** One blank piece stops the loop with the [IndexError]. *)
Lemma clean_loop_blank idx (items clean_args : list string) :
  (∃ piece, piece ∈ items ∧ PyStr.strip piece = "") →
  PybotProfile.clean_loop idx items clean_args = None.
Proof.
  revert idx clean_args.
  induction items as [|item items IH]; intros idx clean_args (piece & Hin & Hp).
  { by apply elem_of_nil in Hin. }
  simpl. destruct (<[idx:=PyStr.strip item]> clean_args !! idx) as [[|c r]|] eqn:E;
    try done.
  apply elem_of_cons in Hin as [<-|Hin].
  - assert (idx < length clean_args)%nat as Hlt.
    { apply lookup_lt_Some in E. by rewrite length_insert in E. }
    rewrite list_lookup_insert_eq in E by done. congruence.
  - destruct (decide (c ≠ "-"%char)); apply IH; eauto.
Qed.

(** An argument string without backticks is one piece. *)
Lemma clean_loop_one args c r :
  PyStr.strip args = String c r →
  PybotProfile.clean_loop 0 [args] [args]
  = Some [if decide (c ≠ "-"%char) then "arg" else PyStr.strip args].
Proof. intros E. simpl. rewrite E. by destruct (decide (c ≠ "-"%char)). Qed.

Lemma get_invalid_message_one parse_args args c r :
  "`"%char ∉ PyStr.chars args → PyStr.strip args = String c r →
  PybotProfile._get_invalid_message parse_args args
  = PybotProfile.verdict
      (parse_args (if decide (c ≠ "-"%char) then ["arg"] else PyStr.split args)).
Proof.
  intros Hb E. unfold PybotProfile._get_invalid_message.
  assert (PyStr.truthy args = true) as ->.
  { destruct args; [|done]. by vm_compute in E. }
  simpl negb. cbv iota. rewrite split_on_absent by done.
  rewrite (clean_loop_one args c r E). cbv iota beta.
  destruct (decide (c ≠ "-"%char)).
  - change (PyStr.split (PyStr.join " " ["arg"])) with ["arg"].
    by destruct (parse_args ["arg"]).
  - simpl PyStr.join. rewrite split_strip.
    by destruct (parse_args (PyStr.split args)).
Qed.
End validation_facts.

(** X6: whatever the parser, [_get_invalid_message] raises on a
    non-empty argument string one of whose pieces between backticks is
    empty or blank, and so on every argument string that ends with a
    backtick: the [IndexError] of the loop has no [message], and the
    handler raises [AttributeError] on reading it. *)
Theorem invalid_message_blank_piece (parse_args : PybotProfile.parser) :
  (∀ args piece, args ≠ "" → piece ∈ PyStr.split_on "`" args →
                 PyStr.strip piece = "" →
     PybotProfile._get_invalid_message parse_args args = Raise AttributeError)
  ∧ (∀ args, PybotProfile._get_invalid_message parse_args (args +:+ "`")
             = Raise AttributeError).
Proof.
  assert (∀ args piece, args ≠ "" → piece ∈ PyStr.split_on "`" args →
                        PyStr.strip piece = "" →
            PybotProfile._get_invalid_message parse_args args = Raise AttributeError)
    as Hblank.
  { intros args piece Hne Hin Hp. unfold PybotProfile._get_invalid_message.
    destruct args; [done|]. simpl negb. cbv iota.
    rewrite clean_loop_blank; [done|]. eauto. }
  split; [exact Hblank|]. intros args. apply (Hblank _ "").
  - by destruct args.
  - rewrite split_on_trailing. apply elem_of_app. right. by left.
  - done.
Qed.

Lemma invalid_message_blank_piece_witness :
  PybotProfile._get_invalid_message usage_parse_args "--name x `hostname` "
  = Raise AttributeError.
Proof.
  apply (proj1 (invalid_message_blank_piece usage_parse_args)
               "--name x `hostname` " " ").
  - done.
  - vm_compute. in_list.
  - vm_compute. reflexivity.
Defined.

(** X7: an argument string without backticks whose first character
    after the blanks is not [-] is validated as the single token [arg]:
    the options that follow are not shown to the parser. *)
Theorem invalid_message_after_positional (parse_args : PybotProfile.parser)
        (args : string) (c : ascii) (r : string) :
  "`"%char ∉ PyStr.chars args → PyStr.strip args = String c r → c ≠ "-"%char →
  PybotProfile._get_invalid_message parse_args args
  = PybotProfile.verdict (parse_args ["arg"]).
Proof.
  intros Hb E Hc. rewrite (get_invalid_message_one _ _ c r) by done.
  by rewrite decide_True.
Qed.

Lemma invalid_message_after_positional_witness :
  PybotProfile._get_invalid_message usage_parse_args "tests --unknown-flag"
  = Return None.
Proof.
  rewrite (invalid_message_after_positional usage_parse_args
             "tests --unknown-flag" "t" "ests --unknown-flag").
  - vm_compute. reflexivity.
  - vm_compute. not_in_list.
  - vm_compute. reflexivity.
  - done.
Defined.

(** X8: for an argument string without backticks that begins, after the
    blanks, with [-], the parser is given the whitespace split of the
    string, and the message is what the method makes of its outcome. *)
Theorem invalid_message_of_tokens (parse_args : PybotProfile.parser) (args : string) :
  "`"%char ∉ PyStr.chars args → PyStr.startswith "-" (PyStr.strip args) = true →
  PybotProfile._get_invalid_message parse_args args
  = PybotProfile.verdict (parse_args (PyStr.split args)).
Proof.
  intros Hb Hd. destruct (PyStr.strip args) as [|c r] eqn:E; [done|].
  simpl in Hd. destruct (decide ("-"%char = c)) as [<-|]; [|done].
  rewrite (get_invalid_message_one _ _ "-" r) by done.
  by rewrite decide_False by naive_solver.
Qed.

Lemma invalid_message_of_tokens_witness :
  PybotProfile._get_invalid_message usage_parse_args "  --loglevel  DEBUG -d out "
  = Return (Some "Unknown option(s): --loglevel").
Proof.
  rewrite (invalid_message_of_tokens usage_parse_args "  --loglevel  DEBUG -d out ").
  - vm_compute. reflexivity.
  - vm_compute. not_in_list.
  - vm_compute. reflexivity.
Defined.

(** X9: [_validate_arguments] raises when [_get_invalid_message] does;
    it shows the text control in the colours of the dialog, with the
    standing tool tip, when there is no message; and a message is never
    empty, so that it is shown in white on red as the tool tip. *)
Theorem validate_arguments_outcome (parse_args : PybotProfile.parser)
        (bg fg args : string) :
  match PybotProfile._get_invalid_message parse_args args with
  | Raise e => PybotProfile._validate_arguments parse_args bg fg args = Raise e
  | Return None =>
      PybotProfile._validate_arguments parse_args bg fg args
      = Return (bg, fg,
                "Arguments for the test run. Arguments are space separated list.")
  | Return (Some invalid_message) =>
      invalid_message ≠ ""
      ∧ PybotProfile._validate_arguments parse_args bg fg args
        = Return ("red", "white", invalid_message)
  end.
Proof.
  unfold PybotProfile._validate_arguments.
  destruct (PybotProfile._get_invalid_message parse_args args) as [[m|]|e] eqn:E;
    [|done|done].
  assert (m ≠ "") as Hm.
  { unfold PybotProfile._get_invalid_message in E.
    destruct (negb _); [done|]. destruct (PybotProfile.clean_loop _ _ _); [|done].
    destruct (parse_args _) as [[] s| |[msg|]]; simplify_eq/=; done. }
  split; [done|]. by destruct m.
Qed.

(** * Settings: names, defaults and the plugin *)

Section setting_facts.
Implicit Types (cls : profile_class) (plugin : gmap string pyval) (s t : string).

(** [s.replace(' ', '_')] leaves no space. *)
Lemma replace_space_underscore s :
  " "%char ∉ PyStr.chars (PyStr.replace " " "_" s).
Proof.
  unfold PyStr.replace. induction s as [|c s IH]; [apply not_elem_of_nil|].
  simpl. destruct (decide (" "%char = c)) as [<-|Hc]; simpl.
  - change ("_" +:+ ?x) with (String "_" x). simpl.
    apply not_elem_of_cons. by split.
  - apply not_elem_of_cons. by split.
Qed.

Lemma string_app_inv_head s t u : s +:+ t = s +:+ u → t = u.
Proof.
  induction s as [|c s IH]; [done|]. rewrite !string_app_cons.
  intros [= H]. by apply IH.
Qed.
End setting_facts.

(** X12: the name under which a setting is saved is the attribute after
    a prefix that depends on the profile only and holds no space;
    different attributes of a profile have different names, and no name of
    [PybotProfile] is a name of [CustomScriptProfile]. *)
Theorem setting_names_namespaced (cls : profile_class) :
  (∃ prefix,
     (" "%char ∉ PyStr.chars prefix)
     ∧ ∀ attr, BaseProfile._get_setting_name cls attr = prefix +:+ "_" +:+ attr)
  ∧ (∀ attr attr', BaseProfile._get_setting_name cls attr
                   = BaseProfile._get_setting_name cls attr' → attr = attr')
  ∧ (∀ attr attr', BaseProfile._get_setting_name PybotProfile.cls attr
                   ≠ BaseProfile._get_setting_name CustomScriptProfile.cls attr').
Proof.
  split_and!.
  - eexists. split; [apply (replace_space_underscore (name cls))|done].
  - unfold BaseProfile._get_setting_name. intros attr attr' H.
    apply string_app_inv_head in H. by apply (string_app_inv_head "_") in H.
  - intros attr attr' H. by vm_compute in H.
Qed.

(** X13: over a plugin that keeps what [save_setting] gives it,
    a setting that [set_setting] wrote is what [__getattr__] reads
    afterwards; and the write changes no read, of this or another profile,
    of an attribute other than the saved name whose setting name is
    another one. *)
Theorem set_setting_then_getattr (cls : profile_class) (plugin : gmap string pyval)
        (setting : string) (value : pyval) :
  BaseProfile.__getattr__ cls (BaseProfile.set_setting cls plugin setting value) setting
  = Return value
  ∧ (∀ cls' attr,
       BaseProfile._get_setting_name cls' attr
       ≠ BaseProfile._get_setting_name cls setting →
       attr ≠ BaseProfile._get_setting_name cls setting →
       BaseProfile.__getattr__ cls' (BaseProfile.set_setting cls plugin setting value) attr
       = BaseProfile.__getattr__ cls' plugin attr).
Proof.
  unfold BaseProfile.__getattr__, BaseProfile.set_setting, BaseProfile.save_setting.
  split.
  - by rewrite lookup_insert_eq.
  - intros cls' attr H1 H2. by rewrite !lookup_insert_ne.
Qed.

Lemma set_setting_then_getattr_witness :
  BaseProfile.__getattr__ CustomScriptProfile.cls
    (BaseProfile.set_setting PybotProfile.cls
       {[ "custom_script_arguments" := VStr "-T" ]} "arguments" (VStr "-d out"))
    "arguments"
  = Return (VStr "-T").
Proof.
  rewrite (proj2 (set_setting_then_getattr PybotProfile.cls
                    {[ "custom_script_arguments" := VStr "-T" ]}
                    "arguments" (VStr "-d out"))).
  - vm_compute. reflexivity.
  - by vm_compute.
  - by vm_compute.
Defined.

(** X14: an attribute that has a declared default never fails to
    resolve, whatever the plugin holds; with nothing on the plugin it
    resolves to the default, and the defaults of [PybotProfile] are those
    of [CustomScriptProfile] too. *)
Theorem declared_settings_resolve (cls : profile_class) (plugin : gmap string pyval)
        (attr : string) (default : pyval) :
  default_settings cls !! attr = Some default →
  (∃ value, BaseProfile.__getattr__ cls plugin attr = Return value)
  ∧ BaseProfile.__getattr__ cls ∅ attr = Return default
  ∧ (cls = PybotProfile.cls →
     BaseProfile.__getattr__ CustomScriptProfile.cls ∅ attr = Return default).
Proof.
  intros Hd. unfold BaseProfile.__getattr__. split_and!.
  - destruct (plugin !! _); [by eexists|]. destruct (plugin !! attr); [by eexists|].
    rewrite Hd. by eexists.
  - by rewrite !lookup_empty, Hd.
  - intros ->. rewrite !lookup_empty.
    change (default_settings CustomScriptProfile.cls)
      with (<["runner_script" := VStr ""]> (default_settings PybotProfile.cls)).
    destruct (decide (attr = "runner_script")) as [->|Hne].
    + by vm_compute in Hd.
    + by rewrite lookup_insert_ne, Hd.
Qed.

Lemma declared_settings_resolve_witness :
  (∃ value, BaseProfile.__getattr__ PybotProfile.cls
              {[ "include_tags" := VStr "smoke" ]} "include_tags" = Return value)
  ∧ BaseProfile.__getattr__ PybotProfile.cls ∅ "include_tags" = Return (VStr "")
  ∧ (PybotProfile.cls = PybotProfile.cls →
     BaseProfile.__getattr__ CustomScriptProfile.cls ∅ "include_tags"
     = Return (VStr "")).
Proof.
  apply (declared_settings_resolve PybotProfile.cls
           {[ "include_tags" := VStr "smoke" ]} "include_tags" (VStr "")).
  vm_compute. reflexivity.
Defined.

(** * The arguments on Windows *)

Section windows_facts.
Implicit Types (s t : string) (c : ascii).

Lemma plain_byte_repr c q :
  PyBytes.plain_byte c = true → q = ascii_of_nat 34 ∨ q = ascii_of_nat 39 →
  PyBytes.repr_byte q c = String c "".
Proof.
  intros Hc Hq.
  destruct c as [[] [] [] [] [] [] [] []]; try (by vm_compute in Hc);
    destruct Hq as [->| ->]; vm_compute; reflexivity.
Qed.

Lemma plain_byte_not c :
  PyBytes.plain_byte c = true →
  c ≠ ascii_of_nat 34 ∧ c ≠ ascii_of_nat 39 ∧ c ≠ ascii_of_nat 92.
Proof. intros Hc. split_and!; intros ->; by vm_compute in Hc. Qed.

Lemma plain_chars s c :
  PyBytes.plain s = true → c ∈ PyStr.chars s → PyBytes.plain_byte c = true.
Proof.
  unfold PyBytes.plain. rewrite forallb_forall. intros H Hc.
  apply H. by apply list_elem_of_In.
Qed.

Lemma plain_absent s c :
  PyBytes.plain s = true →
  c = ascii_of_nat 34 ∨ c = ascii_of_nat 39 ∨ c = ascii_of_nat 92 →
  c ∉ PyStr.chars s.
Proof.
  intros Hs Hc Hin. apply (plain_chars s c Hs) in Hin.
  destruct (plain_byte_not c Hin) as (? & ? & ?).
  by destruct Hc as [?|[?|?]].
Qed.

Lemma repr_body_plain q s t :
  PyBytes.plain s = true → q = ascii_of_nat 34 ∨ q = ascii_of_nat 39 →
  PyBytes.repr_body q (s +:+ t) = s +:+ PyBytes.repr_body q t.
Proof.
  intros Hs Hq. induction s as [|c s IH]; [done|].
  unfold PyBytes.plain in Hs. simpl in Hs. apply andb_true_iff in Hs as [Hc Hs].
  rewrite !string_app_cons. simpl. rewrite plain_byte_repr by done.
  by rewrite IH.
Qed.

(** [needle in hay] for a single character. *)
Lemma contains_char c s :
  PyStr.contains (String c "") s = bool_decide (c ∈ PyStr.chars s).
Proof.
  induction s as [|d s IH]; [done|]. simpl. rewrite IH.
  destruct (decide (c = d)) as [->|Hne].
  - simpl. symmetry. apply bool_decide_eq_true. by left.
  - simpl. apply bool_decide_ext. rewrite elem_of_cons.
    split; [by right|]. by intros [?|?].
Qed.

Lemma lstrip_chars_sub set s c :
  c ∈ PyStr.chars (PyStr.lstrip_chars set s) → c ∈ PyStr.chars s.
Proof.
  induction s as [|d s IH]; [done|]. simpl.
  destruct (bool_decide _); [|done]. intros H. right. by apply IH.
Qed.

Lemma lstrip_sub s c : c ∈ PyStr.chars (PyStr.lstrip s) → c ∈ PyStr.chars s.
Proof.
  induction s as [|d s IH]; [done|]. simpl.
  destruct (PyStr.is_space d); [|done]. intros H. right. by apply IH.
Qed.

Lemma lstrip_app s t :
  PyStr.starts_with_space t = false →
  PyStr.lstrip (s +:+ t) = PyStr.lstrip s +:+ t.
Proof.
  intros Ht. induction s as [|c s IH]; [by apply lstrip_id|].
  rewrite string_app_cons. simpl. by destruct (PyStr.is_space c).
Qed.

(** The leading characters that [lstrip("b'")] drops from the [repr] of
    plain bytes, after its [b'], are the leading [b]s. *)
Lemma lstrip_chars_plain s t :
  PyBytes.plain s = true →
  PyStr.lstrip_chars ("b" +:+ PyStr.squote) (s +:+ PyStr.backslash +:+ t)
  = PyStr.lstrip_chars "b" s +:+ PyStr.backslash +:+ t.
Proof.
  intros Hs. induction s as [|c s IH]; [done|].
  unfold PyBytes.plain in Hs. simpl in Hs. apply andb_true_iff in Hs as [Hc Hs].
  rewrite string_app_cons. simpl.
  destruct (plain_byte_not c Hc) as (_ & Hq & _).
  destruct (decide (c = "b"%char)) as [->|Hb].
  - rewrite !bool_decide_eq_true_2 by (by left). by apply IH.
  - rewrite !bool_decide_eq_false_2; [done| |].
    + intros H. apply elem_of_cons in H as [H|H]; [done|]. by apply elem_of_nil in H.
    + intros H. repeat (apply elem_of_cons in H as [H|H]; [done|]).
      by apply elem_of_nil in H.
Qed.
End windows_facts.

(** X3: on Windows, when [echo] prints the arguments as they are,
    followed by the line end, and the arguments are printable ASCII
    without quotes and backslashes, the arguments defined afterwards are
    the arguments without their leading [b]s and blanks, and the tokens are
    the whitespace split of the arguments without their leading [b]s. *)
Theorem windows_arguments_lose_leading_b (os : platform) (p : profile) :
  IS_WINDOWS os = true →
  popen_echo os (arguments p) = Some (arguments p +:+ crlf) →
  PyBytes.plain (arguments p) = true →
  PybotProfile._get_arguments os p
  = (PyStr.split (PyStr.lstrip_chars "b" (arguments p)),
     set_defined_arguments (PyStr.lstrip (PyStr.lstrip_chars "b" (arguments p))) p).
Proof.
  intros Hw He Hp.
  unfold PybotProfile._get_arguments, PybotProfile._parse_windows_command.
  rewrite Hw, He. set (s := arguments p) in *.
  set (tail := PyStr.backslash +:+ "r" +:+ PyStr.backslash +:+ "n" +:+ PyStr.squote).
  (* the text that [str] makes of the bytes *)
  assert (PyBytes.repr (s +:+ crlf) = "b" +:+ PyStr.squote +:+ s +:+ tail) as ->.
  { unfold PyBytes.repr.
    assert (PyStr.contains PyStr.squote (s +:+ crlf) = false) as ->.
    { unfold PyStr.squote. rewrite contains_char. apply bool_decide_eq_false.
      rewrite chars_app. intros [H|H]%elem_of_app.
      - revert H. apply plain_absent; [done|]. right. by left.
      - vm_compute in H. revert H. not_in_list. }
    simpl andb. cbv iota. rewrite repr_body_plain by (done || by right).
    by rewrite string_app_assoc. }
  change ("b" +:+ PyStr.squote +:+ s +:+ tail)
    with (String "b" (String (ascii_of_nat 39) (s +:+ tail))).
  assert (PyStr.lstrip_chars ("b" +:+ PyStr.squote)
            (String "b" (String (ascii_of_nat 39) (s +:+ tail)))
          = PyStr.lstrip_chars "b" s +:+ tail) as ->.
  { change (PyStr.lstrip_chars ("b" +:+ PyStr.squote)
              (String "b" (String (ascii_of_nat 39) (s +:+ tail))))
      with (PyStr.lstrip_chars ("b" +:+ PyStr.squote) (s +:+ tail)).
    by apply lstrip_chars_plain. }
  set (y := PyStr.lstrip_chars "b" s).
  assert (PyStr.strip (y +:+ tail) = PyStr.lstrip y +:+ tail) as ->.
  { unfold PyStr.strip. rewrite rstrip_id.
    - by apply lstrip_app.
    - unfold PyStr.ends_with_space. rewrite chars_app, last_app. done. }
  set (x := PyStr.lstrip y).
  assert (∀ c, c = ascii_of_nat 34 ∨ c = ascii_of_nat 39 ∨ c = ascii_of_nat 92 →
               c ∉ PyStr.chars x) as Hx.
  { intros c Hc Hin. apply lstrip_sub, lstrip_chars_sub in Hin.
    revert Hin. by apply plain_absent. }
  assert (PyStr.replace (PyStr.backslash +:+ "r" +:+ PyStr.backslash +:+ "n") ""
            (PyStr.replace (PyStr.backslash +:+ PyStr.backslash) PyStr.backslash
               (PyStr.replace PyStr.squote ""
                  (PyStr.replace PyStr.dquote "" (x +:+ tail)))) = x) as ->.
  { unfold PyStr.replace, PyStr.dquote.
    rewrite replace_from_app by (apply Hx; by left).
    assert (PyStr.replace_from (String (ascii_of_nat 34) "") "" 0 tail = tail) as ->
      by (vm_compute; reflexivity).
    unfold PyStr.squote at 1.
    rewrite replace_from_app by (apply Hx; right; by left).
    assert (PyStr.replace_from (String (ascii_of_nat 39) "") "" 0 tail
            = PyStr.backslash +:+ "r" +:+ PyStr.backslash +:+ "n") as ->
      by (vm_compute; reflexivity).
    change (PyStr.backslash +:+ PyStr.backslash)
      with (String (ascii_of_nat 92) PyStr.backslash).
    rewrite replace_from_app by (apply Hx; right; by right).
    assert (PyStr.replace_from (String (ascii_of_nat 92) PyStr.backslash)
              PyStr.backslash 0 (PyStr.backslash +:+ "r" +:+ PyStr.backslash +:+ "n")
            = PyStr.backslash +:+ "r" +:+ PyStr.backslash +:+ "n") as ->
      by (vm_compute; reflexivity).
    change (PyStr.backslash +:+ "r" +:+ PyStr.backslash +:+ "n")
      with (String (ascii_of_nat 92) ("r" +:+ PyStr.backslash +:+ "n")).
    rewrite replace_from_app by (apply Hx; right; by right).
    assert (PyStr.replace_from (String (ascii_of_nat 92) ("r" +:+ PyStr.backslash +:+ "n"))
              "" 0 (String (ascii_of_nat 92) ("r" +:+ PyStr.backslash +:+ "n")) = "") as ->
      by (vm_compute; reflexivity).
    apply string_app_nil_r. }
  simpl. f_equal. unfold x. apply split_lstrip.
Qed.

Lemma windows_arguments_lose_leading_b_witness :
  PybotProfile._get_arguments echo_host (logging_profile true false false "Smoke")
  = ([], logging_profile true false false "Smoke")
  ∧ (PybotProfile._get_arguments echo_host (full_profile "basic.robot" "" "Nightly")).1
    = ["asic.robot"].
Proof.
  split.
  - rewrite (windows_arguments_lose_leading_b echo_host
               (logging_profile true false false "Smoke"));
      vm_compute; reflexivity.
  - rewrite (windows_arguments_lose_leading_b echo_host
               (full_profile "basic.robot" "" "Nightly"));
      vm_compute; reflexivity.
Defined.
